(** * Booking-system scheduling core: availability engine, slot generator,
    business-hours resolver and booking lifecycle manager.

    Shallow embedding of
      src/booking/models.py, src/staff/models.py, src/configmgr/models.py,
      src/booking/services/availability_engine.py,
      src/booking/services/slot_utils.py,
      src/booking/services/booking_manager.py,
      src/booking/serializers.py (BookingSerializer.validate),
      src/booking/views.py (BookingViewSet.create / cancel),
      src/booking/views_cancel.py (cancel_booking_action).

    Conventions.
    - An aware datetime is a [Z] counting seconds on the business time zone's
      clock; [timedelta(minutes=m)] is [60 * m] seconds.  The project runs in a
      single time zone; [tz.localize] is the identity on that clock.
    - A database table is a list of rows in primary-key order; a queryset
      [.filter(...).exists()] is [existsb], [.first()] is [find].
    - Python exceptions are the [Raise] outcome of a small state/error monad;
      [transaction.atomic] restores the store when the body raises. *)

From Stdlib Require Import ZArith List String Ascii Bool Lia Sorting.Sorted DecimalString.
Import ListNotations.
Open Scope Z_scope.

(* ------------------------------------------------------------------ *)
(** ** Data model (booking/models.py, staff/models.py, configmgr/models.py) *)

Inductive Status : Type := CONFIRMED | CANCELLED.

Definition status_eqb (a b : Status) : bool :=
  match a, b with
  | CONFIRMED, CONFIRMED | CANCELLED, CANCELLED => true
  | _, _ => false
  end.

(** [Service]: [duration_minutes] is a PositiveIntegerField (validator >= 1). *)
Record Service : Type := mkService {
  service_id : nat;
  duration_minutes : Z;
  active : bool
}.

(** [ClientProfile] *)
Record ClientProfile : Type := mkClientProfile {
  client_pk : nat;
  client_name : string;
  client_email : string;
  client_phone : string
}.

(** [Booking]: the client and service foreign keys are read through to their
    rows; [staff] is a nullable foreign key, held as the staff primary key. *)
Record Booking : Type := mkBooking {
  booking_id : nat;
  client : ClientProfile;
  service : Service;
  staff : option nat;
  start_time : Z;
  notes : string;
  status : Status;
  cancellation_time : option Z
}.

(** [StaffAvailability] (staff/models.py): one availability window. *)
Record StaffAvailability : Type := mkStaffAvailability {
  av_staff : nat;
  av_start_time : Z;
  av_end_time : Z
}.

(** [SystemSetting] (configmgr/models.py): key/value row. *)
Record SystemSetting : Type := mkSystemSetting {
  key : string;
  value : string
}.

(** Field access [booking.start_time], named apart from the engine's
    [start_time] parameters. *)
Definition booking_start_time (b : Booking) : Z := start_time b.


(** Field access [booking.staff_id]. *)
Definition booking_staff (b : Booking) : option nat := staff b.

(** Field access [booking.pk]. *)
Definition booking_pk (b : Booking) : nat := booking_id b.

(** [datetime.timedelta(minutes=m)] in seconds. *)
Definition timedelta_minutes (m : Z) : Z := 60 * m.

(** [Booking.objects.filter(staff=staff)]: a null staff never matches. *)
Definition staff_matches (b : Booking) (s : nat) : bool :=
  match staff b with
  | Some s' => Nat.eqb s' s
  | None => false
  end.

(* ------------------------------------------------------------------ *)
(** ** Booking store and the effects of the ORM *)

Module Store.

(** The exceptions raised in this code.  [RelatedLookupError staff] is the
    ValueError Django raises when a queryset filters a foreign key by an
    instance of another model, here a [booking.models.Staff] given for the
    [staff.models.Staff] foreign key [StaffAvailability.staff]; [staff] is
    the primary key of the offending object.  Both are ValueErrors, so every
    [except ValueError] of the code catches both. *)
Inductive Exn : Type :=
| ValueError (msg : string)
| RelatedLookupError (staff : nat).

Inductive outcome (A : Type) : Type :=
| Ok (a : A)
| Raise (e : Exn).
Arguments Ok {A} a.
Arguments Raise {A} e.

(** Computations over the booking table. *)
Definition M (A : Type) : Type := list Booking -> list Booking * outcome A.

Definition ret {A} (a : A) : M A := fun s => (s, Ok a).
Definition raise {A} (e : Exn) : M A := fun s => (s, Raise e).
Definition bind {A B} (m : M A) (k : A -> M B) : M B :=
  fun s => match m s with
           | (s', Ok a) => k a s'
           | (s', Raise e) => (s', Raise e)
           end.
Definition get : M (list Booking) := fun s => (s, Ok s).

(** Sequencing of computations that read the table but do not write it. *)
Definition obind {A B} (o : outcome A) (k : A -> outcome B) : outcome B :=
  match o with
  | Ok a => k a
  | Raise e => Raise e
  end.

(** A read-only computation as a step of [M]. *)
Definition of_outcome {A} (o : outcome A) : M A := fun s => (s, o).

(** [try: m except ValueError as e: h e] *)
Definition try_except {A} (m : M A) (h : Exn -> M A) : M A :=
  fun s => match m s with
           | (s', Raise e) => h e s'
           | r => r
           end.

(** [@transaction.atomic]: a raising body leaves the table as it found it. *)
Definition atomic {A} (m : M A) : M A :=
  fun s => match m s with
           | (_, Raise e) => (s, Raise e)
           | r => r
           end.

Notation "x <- m ;; k" := (bind m (fun x => k))
  (at level 61, m at next level, right associativity).

Definition set_status (st : Status) (b : Booking) : Booking :=
  mkBooking (booking_id b) (client b) (service b) (staff b) (start_time b)
            (notes b) st (cancellation_time b).
Definition set_cancellation_time (t : option Z) (b : Booking) : Booking :=
  mkBooking (booking_id b) (client b) (service b) (staff b) (start_time b)
            (notes b) (status b) t.
Definition set_notes (n : string) (b : Booking) : Booking :=
  mkBooking (booking_id b) (client b) (service b) (staff b) (start_time b)
            n (status b) (cancellation_time b).

(** The names accepted by [save(update_fields=[...])] in this code. *)
Inductive Field : Type := F_status | F_cancellation_time | F_notes.

Definition copy_field (src : Booking) (f : Field) (row : Booking) : Booking :=
  match f with
  | F_status => set_status (status src) row
  | F_cancellation_time => set_cancellation_time (cancellation_time src) row
  | F_notes => set_notes (notes src) row
  end.

(** [obj.save(update_fields=fields)]: the row with the object's primary key
    takes the listed fields from the in-memory object. *)
Definition save (fields : list Field) (b : Booking) : M unit :=
  fun s => (map (fun row => if Nat.eqb (booking_id row) (booking_id b)
                           then fold_right (copy_field b) row fields
                           else row) s, Ok tt).

(** [obj.delete()] *)
Definition delete (b : Booking) : M unit :=
  fun s => (filter (fun row => negb (Nat.eqb (booking_id row) (booking_id b))) s, Ok tt).

Definition next_pk (s : list Booking) : nat :=
  S (fold_right (fun row m => Nat.max (booking_id row) m) O s).

(** [Booking.objects.create(client=..., service=..., staff=..., start_time=...,
    notes=...)], with the model defaults [status="CONFIRMED"] and
    [cancellation_time=None]. *)
Definition objects_create (c : ClientProfile) (sv : Service) (st : option nat)
    (t : Z) (n : string) : M Booking :=
  fun s => let b := mkBooking (next_pk s) c sv st t n CONFIRMED None in
           (s ++ [b], Ok b).

(** Whether a computation ended in a raised exception. *)
Definition is_raise {A} (o : outcome A) : bool :=
  match o with Raise _ => true | Ok _ => false end.

(** [Booking.objects.filter(pk=pk).first()] *)
Definition lookup (s : list Booking) (pk : nat) : option Booking :=
  find (fun row => Nat.eqb (booking_id row) pk) s.

End Store.

(* ------------------------------------------------------------------ *)
(** ** Availability engine (services/availability_engine.py) *)

Module AvailabilityEngine.
Import Store.

(** The optional import of [staff.models.StaffAvailability] succeeds: the
    model is defined in src/staff/models.py, and the staff app is loaded
    (booking_system/urls.py includes staff.urls). *)
Definition HAS_STAFF_AVAILABILITY : bool := true.

(** The two Staff models of the project: [booking.models.Staff], which this
    module imports and whose rows every caller passes as [staff], and
    [staff.models.Staff], the target of [StaffAvailability.staff]. *)
Inductive StaffModel : Type := BookingStaff | StaffAppStaff.

(** Django's check on [filter(fk=obj)] (check_rel_lookup_compatible): [obj]
    must be an instance of the foreign key's target model, here
    [staff.models.Staff]; otherwise building the queryset raises
    [ValueError('Cannot query "<obj>": Must be "Staff" instance.')]. *)
Definition staff_lookup_compatible (m : StaffModel) : bool :=
  match m with
  | StaffAppStaff => true
  | BookingStaff => false
  end.

(** [_fits_staff_availability]; [model] is the model of the [staff] object
    and [staff] its primary key. *)
Definition fits_staff_availability (windows : list StaffAvailability)
    (model : StaffModel) (staff : nat) (start_time : Z) (duration_minutes : Z)
    : outcome bool :=
  if negb HAS_STAFF_AVAILABILITY then Ok true
  else
    let duration := timedelta_minutes duration_minutes in
    let end_time := start_time + duration in
    if negb (staff_lookup_compatible model) then Raise (RelatedLookupError staff)
    else
      let qs := filter (fun w => Nat.eqb (av_staff w) staff
                                 && (av_start_time w <=? start_time)
                                 && (end_time <=? av_end_time w)) windows in
      if negb (match qs with [] => true | _ => false end) then Ok true
      else if negb (existsb (fun w => Nat.eqb (av_staff w) staff) windows) then Ok true
      else Ok false.

(** [_has_booking_conflict]: a booking of the staff member conflicts when its
    start lies in [start_time - D, start_time + D). *)
Definition has_booking_conflict (bookings : list Booking) (staff : nat)
    (start_time : Z) (duration_minutes : Z) : bool :=
  let duration := timedelta_minutes duration_minutes in
  let end_time := start_time + duration in
  existsb (fun b => staff_matches b staff
                    && (booking_start_time b <? end_time)
                    && (start_time - duration <=? booking_start_time b)) bookings.

(** [is_slot_available_for_staff]; [staff] is a [booking.models.Staff] row
    (its primary key), as passed by every caller: BookingManager
    (the serializer's [Staff] field), BookingViewSet.create
    ([Staff.objects.all()]) and [find_available_slots]. *)
Definition is_slot_available_for_staff (bookings : list Booking)
    (windows : list StaffAvailability) (staff : nat) (service : Service)
    (start_time : Z) : outcome bool :=
  if has_booking_conflict bookings staff start_time (duration_minutes service)
  then Ok false
  else obind (fits_staff_availability windows BookingStaff staff start_time
                (duration_minutes service))
             (fun fits => if negb fits then Ok false else Ok true).

End AvailabilityEngine.

(* ------------------------------------------------------------------ *)
(** ** Slot utilities (services/slot_utils.py) *)

Module SlotUtils.

(** [datetime.time]: [time(h, m)] raises ValueError unless 0 <= h <= 23 and
    0 <= m <= 59. *)
Record Time : Type := mkTime { hour : Z; minute : Z }.

Definition time (h m : Z) : option Time :=
  if (0 <=? h) && (h <=? 23) && (0 <=? m) && (m <=? 59)
  then Some (mkTime h m) else None.

(** Whitespace stripped by Python's [int(str)] (ASCII part: \t \n \v \f \r,
    the separators \x1c-\x1f, and the space). *)
Definition is_py_space (c : ascii) : bool :=
  let n := nat_of_ascii c in
  (Nat.leb 9 n && Nat.leb n 13) || (Nat.leb 28 n && Nat.leb n 32).

Definition is_digit (c : ascii) : bool :=
  let n := nat_of_ascii c in Nat.leb 48 n && Nat.leb n 57.

Definition digit_value (c : ascii) : Z := Z.of_nat (nat_of_ascii c) - 48.

Fixpoint lstrip (l : list ascii) : list ascii :=
  match l with
  | c :: r => if is_py_space c then lstrip r else l
  | [] => []
  end.

Definition strip (l : list ascii) : list ascii := rev (lstrip (rev (lstrip l))).

(** Decimal digits with single underscores between digits, as accepted by
    [int(str)]; [prev_digit] records that the last character was a digit. *)
Fixpoint parse_digits (l : list ascii) (acc : Z) (prev_digit : bool) : option Z :=
  match l with
  | [] => if prev_digit then Some acc else None
  | c :: r =>
      if is_digit c then parse_digits r (acc * 10 + digit_value c) true
      else if Ascii.eqb c "_"%char && prev_digit then parse_digits r acc false
      else None
  end.

(** [int(s)] on a string: [None] is the ValueError. *)
Definition py_int (l : list ascii) : option Z :=
  match strip l with
  | "+"%char :: r => parse_digits r 0 false
  | "-"%char :: r => option_map Z.opp (parse_digits r 0 false)
  | l' => parse_digits l' 0 false
  end.

(** [s.split(":")] *)
Fixpoint split_colon (l : list ascii) : list (list ascii) :=
  match l with
  | [] => [[]]
  | c :: r =>
      let parts := split_colon r in
      if Ascii.eqb c ":"%char then [] :: parts
      else match parts with
           | p :: ps => (c :: p) :: ps
           | [] => [[c]]
           end
  end.

(** [_parse_hhmm]: [h, m = value.split(":")] fails unless there are exactly
    two parts; [None] is the raised exception. *)
Definition parse_hhmm (value : string) : option Time :=
  match split_colon (list_ascii_of_string value) with
  | [h; m] =>
      match py_int h, py_int m with
      | Some h', Some m' => time h' m'
      | _, _ => None
      end
  | _ => None
  end.

Definition default_open : Time := mkTime 9 0.
Definition default_close : Time := mkTime 17 0.

(** [SystemSetting.objects.filter(key=k).first()] *)
Definition first_setting (rows : list SystemSetting) (k : string)
    : option SystemSetting :=
  find (fun r => String.eqb (key r) k) rows.

(** [get_business_hours]: the settings table is [None] when the configmgr
    import or the table lookup raises (caught by the outer [except]). *)
Definition get_business_hours (settings : option (list SystemSetting))
    : Time * Time :=
  match settings with
  | None => (default_open, default_close)
  | Some rows =>
      match first_setting rows "BUSINESS_OPEN", first_setting rows "BUSINESS_CLOSE" with
      | Some open_row, Some close_row =>
          match parse_hhmm (value open_row) with
          | Some o =>
              match parse_hhmm (value close_row) with
              | Some c => (o, c)
              | None => (default_open, default_close)
              end
          | None => (default_open, default_close)
          end
      | _, _ => (default_open, default_close)
      end
  end.

(** The [while current + slot <= day_close] loop.  Each iteration is paid
    for by one unit of fuel; running out of fuel is the non-terminating run
    of the Python loop (a non-positive step that never passes close). *)
Fixpoint slot_loop (fuel : nat) (slot current day_close : Z) : option (list Z) :=
  match fuel with
  | O => None
  | S f =>
      if current + slot <=? day_close
      then option_map (cons current) (slot_loop f slot (current + slot) day_close)
      else Some []
  end.

(** [generate_slots_for_day]; [date_start] is the aware midnight of the day. *)
Definition generate_slots_for_day (service_duration_minutes : Z)
    (open_time close_time : option Time) (date_start : Z)
    (settings : option (list SystemSetting)) : option (list Z) :=
  let '(open_time, close_time) :=
    match open_time, close_time with
    | Some o, Some c => (o, c)
    | _, _ => get_business_hours settings
    end in
  let slot := timedelta_minutes service_duration_minutes in
  let day_open := date_start + 3600 * hour open_time + 60 * minute open_time in
  let day_close := date_start + 3600 * hour close_time + 60 * minute close_time in
  slot_loop (S (Z.to_nat (day_close - day_open))) slot day_open day_close.

(** [s.split(sep)] for a one-character separator. *)
Fixpoint split_on (sep : ascii) (l : list ascii) : list (list ascii) :=
  match l with
  | [] => [[]]
  | c :: r =>
      let parts := split_on sep r in
      if Ascii.eqb c sep then [] :: parts
      else match parts with
           | p :: ps => (c :: p) :: ps
           | [] => [[c]]
           end
  end.

(** The proleptic Gregorian calendar of Python's [datetime] module:
    [_is_leap], [_days_in_month], [_days_before_year], [_days_before_month],
    [_ymd2ord]. *)
Definition is_leap (year : Z) : bool :=
  (year mod 4 =? 0) && (negb (year mod 100 =? 0) || (year mod 400 =? 0)).

Definition DAYS_IN_MONTH (month : Z) : Z :=
  match month with
  | 2 => 28 | 4 | 6 | 9 | 11 => 30 | _ => 31
  end.

Definition DAYS_BEFORE_MONTH (month : Z) : Z :=
  match month with
  | 1 => 0 | 2 => 31 | 3 => 59 | 4 => 90 | 5 => 120 | 6 => 151
  | 7 => 181 | 8 => 212 | 9 => 243 | 10 => 273 | 11 => 304 | _ => 334
  end.

Definition days_in_month (year month : Z) : Z :=
  if (month =? 2) && is_leap year then 29 else DAYS_IN_MONTH month.

Definition days_before_year (year : Z) : Z :=
  let y := year - 1 in y * 365 + y / 4 - y / 100 + y / 400.

Definition days_before_month (year month : Z) : Z :=
  DAYS_BEFORE_MONTH month + (if (2 <? month) && is_leap year then 1 else 0).

Definition ymd2ord (year month day : Z) : Z :=
  days_before_year year + days_before_month year month + day.

(** [datetime(year, month, day)] argument check ([_check_date_fields]). *)
Definition check_date_fields (year month day : Z) : bool :=
  (1 <=? year) && (year <=? 9999) && (1 <=? month) && (month <=? 12)
  && (1 <=? day) && (day <=? days_in_month year month).

(** Midnight of a date on the business clock: the clock counts seconds from
    the midnight before day 1 of the proleptic ordinal. *)
Definition midnight (year month day : Z) : option Z :=
  if check_date_fields year month day
  then Some (ymd2ord year month day * 86400) else None.

(** [_MAXORDINAL]: the ordinal of 9999-12-31, the last date of [datetime]. *)
Definition MAXORDINAL : Z := 3652059.

(** [day_start + timedelta(days=1)]: the sum must still be a [datetime],
    i.e. its ordinal at most [MAXORDINAL]; otherwise OverflowError. *)
Definition add_one_day (day_start : Z) : option Z :=
  if day_start / 86400 + 1 <=? MAXORDINAL then Some (day_start + 86400) else None.

(** [date_to_range]: [y, m, d = map(int, date_str.split("-"))], then the
    localized midnight and the day end one day later; [None] is the raised
    ValueError (bad format or date) or OverflowError (no next day). *)
Definition date_to_range (date_str : string) : option (Z * Z) :=
  match map py_int (split_on "-"%char (list_ascii_of_string date_str)) with
  | [Some y; Some m; Some d] =>
      match midnight y m d with
      | Some day_start =>
          match add_one_day day_start with
          | Some day_end => Some (day_start, day_end)
          | None => None
          end
      | None => None
      end
  | _ => None
  end.

End SlotUtils.

(* ------------------------------------------------------------------ *)
(** ** Slot listing ([AvailabilityEngine.find_available_slots]) *)

Module AvailabilitySlots.
Import Store.

(** The inner loop over [staff_queryset] for one start: the free members in
    order; the first raising check propagates. *)
Fixpoint free_staff_ids (bookings : list Booking) (windows : list StaffAvailability)
    (service : Service) (start : Z) (staff_queryset : list nat) : outcome (list nat) :=
  match staff_queryset with
  | [] => Ok []
  | s :: rest =>
      obind (AvailabilityEngine.is_slot_available_for_staff bookings windows s service start)
        (fun free =>
           obind (free_staff_ids bookings windows service start rest)
             (fun ids => Ok (if free then s :: ids else ids)))
  end.

(** The outer loop over candidate starts: a start is kept only when some
    member is free. *)
Fixpoint collect_slots (bookings : list Booking) (windows : list StaffAvailability)
    (service : Service) (staff_queryset : list nat) (slots : list Z)
    : outcome (list (Z * list nat)) :=
  match slots with
  | [] => Ok []
  | start :: rest =>
      obind (free_staff_ids bookings windows service start staff_queryset)
        (fun ids =>
           obind (collect_slots bookings windows service staff_queryset rest)
             (fun results =>
                Ok (match ids with
                    | [] => results
                    | _ => (start, ids) :: results
                    end)))
  end.

(** [find_available_slots]: candidate starts over the configured business
    hours; [None] when slot generation does not terminate. *)
Definition find_available_slots (bookings : list Booking)
    (windows : list StaffAvailability) (settings : option (list SystemSetting))
    (service : Service) (date_start : Z) (staff_queryset : list nat)
    : option (outcome (list (Z * list nat))) :=
  match SlotUtils.generate_slots_for_day (duration_minutes service) None None
          date_start settings with
  | Some slots => Some (collect_slots bookings windows service staff_queryset slots)
  | None => None
  end.

End AvailabilitySlots.


(* ------------------------------------------------------------------ *)
(** ** Booking manager (services/booking_manager.py) *)

Module BookingManager.
Import Store.

(** [hasattr(booking, "status")]: the Booking model declares [status]. *)
Definition has_status_field : bool := true.

(** [create_booking]; [windows] is the StaffAvailability table read by the
    availability engine. *)
Definition create_booking (windows : list StaffAvailability)
    (client : ClientProfile) (service : Service) (staff : option nat)
    (start_time : Z) (notes : string) : M Booking :=
  atomic (
    bookings <- get ;;
    match staff with
    | Some s =>
        ok <- of_outcome (AvailabilityEngine.is_slot_available_for_staff
                            bookings windows s service start_time) ;;
        if negb ok
        then raise (ValueError "Selected time overlaps with an existing booking for this staff.")
        else objects_create client service staff start_time notes
    | None => objects_create client service staff start_time notes
    end).

(** [cancel_booking]; [now] is [timezone.now()].  The in-memory booking
    object is shared with the caller, so the mutated object is returned
    with the Python result [True]. *)
Definition cancel_booking (booking : Booking) (now : Z) (cutoff_minutes : Z)
    : M (Booking * bool) :=
  atomic (
    if booking_start_time booking - now <=? timedelta_minutes cutoff_minutes
    then raise (ValueError "Cannot cancel within 2 hours of appointment start.")
    else if has_status_field then
      let booking' := set_status CANCELLED booking in
      _ <- save [F_status] booking' ;;
      ret (booking', true)
    else
      _ <- delete booking ;;
      ret (booking, true)).

End BookingManager.

(* ------------------------------------------------------------------ *)
(** ** HTTP entry points (views.py, views_cancel.py) *)

Module Views.
Import Store.

(** A JSON/DRF response: status code and message. *)
Record Response : Type := mkResponse { code : Z; message : string }.

Definition dq : string := String (ascii_of_nat 34) EmptyString.

(** [str(e)].  Django renders the object of a [RelatedLookupError] with its
    [__str__], the staff member's name; staff members are identified by
    primary key in this model, which stands in for the name. *)
Definition exn_message (e : Exn) : string :=
  match e with
  | ValueError m => m
  | RelatedLookupError s =>
      "Cannot query " ++ dq ++ NilZero.string_of_uint (Nat.to_uint s) ++ dq
      ++ ": Must be " ++ dq ++ "Staff" ++ dq ++ " instance."
  end.

(** Python [str.lower()] on ASCII letters. *)
Definition lower_char (c : ascii) : ascii :=
  let n := nat_of_ascii c in
  if Nat.leb 65 n && Nat.leb n 90 then ascii_of_nat (n + 32) else c.

Definition lower (s : string) : string :=
  string_of_list_ascii (map lower_char (list_ascii_of_string s)).

Definition py_strip (s : string) : string :=
  string_of_list_ascii (SlotUtils.strip (list_ascii_of_string s)).

(** [str.isdigit()] on ASCII: non-empty and all digits. *)
Definition isdigit (s : string) : bool :=
  match list_ascii_of_string s with
  | [] => false
  | l => forallb SlotUtils.is_digit l
  end.

Definition is_empty (s : string) : bool :=
  match s with EmptyString => true | _ => false end.

(** [BookingViewSet.cancel] (POST /api/bookings/{id}/cancel/). *)
Definition api_cancel (pk : nat) (now : Z) : M Response :=
  bookings <- get ;;
  match lookup bookings pk with
  | None => ret (mkResponse 404 "Not found.")
  | Some booking =>
      try_except
        (_ <- BookingManager.cancel_booking booking now 120 ;;
         ret (mkResponse 200 "Booking cancelled."))
        (fun e => ret (mkResponse 400 (exn_message e)))
  end.

(** Form fields of POST /bookings/cancel/submit/ ([request.POST.get(f) or the empty string]). *)
Record CancelForm : Type := mkCancelForm {
  f_booking_id : string;
  f_name : string;
  f_email : string;
  f_phone : string;
  f_reason : string
}.

Definition newline : string := String (ascii_of_nat 10) EmptyString.

(** [cancel_booking_action]; [now1] is the manager's [timezone.now()] and
    [now2] the view's later [timezone.now()]. *)
Definition cancel_booking_action (form : CancelForm) (now1 now2 : Z) : M Response :=
  let booking_id := py_strip (f_booking_id form) in
  let name := py_strip (f_name form) in
  let email := py_strip (f_email form) in
  let phone := py_strip (f_phone form) in
  let reason := py_strip (f_reason form) in
  if is_empty booking_id || is_empty name || is_empty email || is_empty phone
  then ret (mkResponse 400 "All required fields must be filled.")
  else if negb (isdigit phone)
  then ret (mkResponse 400 "Phone must include digits only.")
  else match SlotUtils.py_int (list_ascii_of_string booking_id) with
  | None => ret (mkResponse 400 "Invalid Booking ID.")
  | Some bid_int =>
    bookings <- get ;;
    match find (fun row => Z.eqb (Z.of_nat (booking_pk row)) bid_int) bookings with
    | None => ret (mkResponse 404 "Not found.")
    | Some booking =>
      if negb (String.eqb (lower (py_strip (client_name (client booking)))) (lower name))
      then ret (mkResponse 400 "Provided name does not match this booking.")
      else if negb (String.eqb (lower (py_strip (client_email (client booking)))) (lower email))
      then ret (mkResponse 400 "Provided email does not match this booking.")
      else if negb (String.eqb (py_strip (client_phone (client booking))) phone)
      then ret (mkResponse 400 "Provided phone does not match this booking.")
      else if status_eqb (status booking) CANCELLED
      then ret (mkResponse 400 "This booking is already cancelled.")
      else
        try_except
          (r <- BookingManager.cancel_booking booking now1 120 ;;
           let booking := fst r in
           let booking := if negb (status_eqb (status booking) CANCELLED)
                          then set_status CANCELLED booking else booking in
           let booking := match cancellation_time booking with
                          | None => set_cancellation_time (Some now2) booking
                          | Some _ => booking
                          end in
           let booking := if negb (is_empty reason)
                          then set_notes (notes booking ++ newline ++ "[Cancel reason] " ++ reason) booking
                          else booking in
           _ <- save [F_status; F_cancellation_time; F_notes] booking ;;
           ret (mkResponse 200 "Your booking has been cancelled."))
          (fun e => ret (mkResponse 400 (exn_message e)))
    end
  end.

(** Validated payload of POST /api/bookings/ (client and service primary
    keys resolved to their rows). *)
Record CreateRequest : Type := mkCreateRequest {
  rq_client : ClientProfile;
  rq_service : Service;
  rq_staff : option nat;
  rq_start_time : Z;
  rq_notes : string
}.

(** [BookingSerializer] field validation of the staff primary key, then
    [BookingSerializer.validate] (the past-time check). *)
Definition serializer_is_valid (roster : list nat) (now : Z) (req : CreateRequest)
    : option string :=
  let field_error :=
    match rq_staff req with
    | Some s => if negb (existsb (Nat.eqb s) roster)
                then Some "Invalid pk - object does not exist."%string else None
    | None => None
    end in
  match field_error with
  | Some e => Some e
  | None => if rq_start_time req <=? now
            then Some "Start time must be in the future."%string else None
  end.

(** [for s in roster: if staff_is_free(s): staff = s; break], starting from
    [staff]; a raising check propagates. *)
Fixpoint first_free (staff_is_free : nat -> outcome bool) (roster : list nat)
    (staff : option nat) : outcome (option nat) :=
  match roster with
  | [] => Ok staff
  | s :: rest =>
      obind (staff_is_free s) (fun free =>
        if free then Ok (Some s) else first_free staff_is_free rest staff)
  end.

(** [BookingViewSet.create] (POST /api/bookings/); [roster] is
    [Staff.objects.all().order_by("id")].  [staff_is_free] runs outside the
    [try], so its exceptions leave the view (HTTP 500). *)
Definition booking_create (windows : list StaffAvailability) (roster : list nat)
    (now : Z) (req : CreateRequest) : M Response :=
  match serializer_is_valid roster now req with
  | Some e => ret (mkResponse 400 e)
  | None =>
    let service := rq_service req in
    let start_time := rq_start_time req in
    if negb (active service)
    then ret (mkResponse 400 "This service is not currently available.")
    else
      bookings <- get ;;
      let staff_is_free s :=
        AvailabilityEngine.is_slot_available_for_staff bookings windows s service start_time in
      staff <- of_outcome
                 (match rq_staff req with
                  | Some s => obind (staff_is_free s) (fun free =>
                                if free then Ok (Some s)
                                else first_free staff_is_free roster (Some s))
                  | None => first_free staff_is_free roster None
                  end) ;;
      match staff with
      | Some s =>
          free <- of_outcome (staff_is_free s) ;;
          if negb free
          then ret (mkResponse 400 "No staff available for that time.")
          else
            try_except
              (_ <- BookingManager.create_booking windows (rq_client req) service
                      (Some s) start_time (rq_notes req) ;;
               ret (mkResponse 201 "Created"))
              (fun e => ret (mkResponse 400 (exn_message e)))
      | None => ret (mkResponse 400 "No staff available for that time.")
      end
  end.

(** Outcome of GET /api/bookings/availability/. *)
Inductive AvailabilityResponse : Type :=
| SlotsResponse (slots : list (Z * list nat))
| ErrorResponse (code : Z) (detail : string).

(** [BookingViewSet.availability] from the call to [date_to_range] on, for a
    [date_str] that Django's [parse_date] accepted and a resolved service;
    [roster] is [Staff.objects.all().order_by("id")].  Slots not strictly
    after [now] are dropped.  [None]: no response (slot generation does not
    terminate); [Some (Raise e)]: [find_available_slots] raised (HTTP 500). *)
Definition availability (bookings : list Booking) (windows : list StaffAvailability)
    (settings : option (list SystemSetting)) (roster : list nat)
    (service : Service) (date_str : string) (now : Z)
    : option (outcome AvailabilityResponse) :=
  match SlotUtils.date_to_range date_str with
  | None => Some (Ok (ErrorResponse 400 "Invalid date format. Use YYYY-MM-DD."))
  | Some (day_start, _day_end) =>
      match AvailabilitySlots.find_available_slots bookings windows settings
              service day_start roster with
      | None => None
      | Some (Raise e) => Some (Raise e)
      | Some (Ok slots) => Some (Ok (SlotsResponse (filter (fun e => now <? fst e) slots)))
      end
  end.

End Views.

(* ------------------------------------------------------------------ *)
(** ** Client profiles (models.py [ClientProfile.clean], views.py
    [ClientProfileViewSet.create]) *)

Module Clients.

(** [field__iexact=value] on ASCII text: equality after case folding. *)
Definition iexact (a b : string) : bool :=
  String.eqb (Views.lower a) (Views.lower b).

(** The lookup [ClientProfile.objects.filter(name__iexact=name,
    email__iexact=email, phone=phone)]. *)
Definition same_client (name email phone : string) (p : ClientProfile) : bool :=
  iexact (client_name p) name && iexact (client_email p) email
  && String.eqb (client_phone p) phone.

(** [ClientProfile.clean]: [Some msg] is the raised ValidationError.  A
    primary key of 0 is the falsy [self.pk] of an unsaved profile. *)
Definition clean (profiles : list ClientProfile) (self : ClientProfile) : option string :=
  let name := Views.py_strip (client_name self) in
  let email := Views.py_strip (client_email self) in
  let phone := Views.py_strip (client_phone self) in
  if Views.is_empty name || Views.is_empty email || Views.is_empty phone then None
  else
    let qs := filter (same_client name email phone) profiles in
    let qs := if Nat.eqb (client_pk self) 0 then qs
              else filter (fun p => negb (Nat.eqb (client_pk p) (client_pk self))) qs in
    match qs with
    | [] => None
    | _ => Some "A client with the same name, email, and phone already exists."%string
    end.

(** The duplicate key of the class documentation: name and e-mail up to
    case, phone exactly. *)
Definition client_key (p : ClientProfile) : string * string * string :=
  (Views.lower (client_name p), Views.lower (client_email p), client_phone p).

(** [re.match(r"^\d{7,15}$", phone)] on a stripped ASCII phone. *)
Definition phone_ok (phone : string) : bool :=
  let l := list_ascii_of_string phone in
  Nat.leb 7 (List.length l) && Nat.leb (List.length l) 15 && forallb SlotUtils.is_digit l.

(** Primary key given to a new row. *)
Definition next_client_pk (t : list ClientProfile) : nat :=
  S (fold_right (fun p m => Nat.max (client_pk p) m) O t).

(** [ClientProfileViewSet.create] on the table [t] (in primary-key order),
    returning the status code and the profile of the response body.
    [serializer_valid] is the [ClientProfileSerializer] field validation
    (e-mail syntax, lengths) of the stripped values; [is_valid(raise_exception=True)]
    answers 400 when it fails. *)
Definition create (serializer_valid : string -> string -> string -> bool)
    (name0 email0 phone0 : string) (t : list ClientProfile)
    : list ClientProfile * (Z * option ClientProfile) :=
  let name := Views.py_strip name0 in
  let email := Views.py_strip email0 in
  let phone := Views.py_strip phone0 in
  if Views.is_empty name || Views.is_empty email || Views.is_empty phone
  then (t, (400, None))
  else if negb (phone_ok phone) then (t, (400, None))
  else match find (same_client name email phone) t with
  | Some existing => (t, (200, Some existing))
  | None =>
      if serializer_valid name email phone
      then let p := mkClientProfile (next_client_pk t) name email phone in
           (t ++ [p], (201, Some p))
      else (t, (400, None))
  end.

End Clients.

(* ------------------------------------------------------------------ *)
(** ** Feedback (serializers.py [FeedbackSerializer.validate]) *)

Module FeedbackApi.

(** [FeedbackSerializer.validate]; [Some msg] is the raised ValidationError. *)
Definition validate (booking : option Booking) (rating : option Z) (now : Z)
    : option string :=
  if match booking with Some b => now <=? booking_start_time b | None => false end
  then Some "Feedback can be submitted only after the appointment time."%string
  else if match rating with Some r => (r <? 1) || (5 <? r) | None => false end
  then Some "Rating must be between 1 and 5."%string
  else if match booking with Some b => status_eqb (status b) CANCELLED | None => false end
  then Some "Cannot submit feedback for a cancelled appointment."%string
  else None.

End FeedbackApi.

(* ------------------------------------------------------------------ *)
(** ** Spec-side definitions and concrete fixtures *)

Module Spec.


(** A strict "HH:MM" setting value: two decimal digits, a colon, two
    decimal digits. *)
Definition digit_char (d : Z) : ascii := ascii_of_nat (48 + Z.to_nat d).

Definition hhmm_string (h m : Z) : string :=
  String (digit_char (h / 10)) (String (digit_char (h mod 10))
    (String ":" (String (digit_char (m / 10)) (String (digit_char (m mod 10))
      EmptyString)))).

(** Integers [a, a + n). *)
Definition zrange (a : Z) (n : nat) : list Z :=
  map (fun k => a + Z.of_nat k) (seq 0 n).

Definition time_opt_eqb (x y : option SlotUtils.Time) : bool :=
  match x, y with
  | Some t, Some u => Z.eqb (SlotUtils.hour t) (SlotUtils.hour u)
                      && Z.eqb (SlotUtils.minute t) (SlotUtils.minute u)
  | None, None => true
  | _, _ => false
  end.

(** A "YYYY-MM-DD" date string with zero-padded fields. *)
Definition date_string (y m d : Z) : string :=
  String (digit_char (y / 1000)) (String (digit_char (y / 100 mod 10))
  (String (digit_char (y / 10 mod 10)) (String (digit_char (y mod 10))
  (String "-" (String (digit_char (m / 10)) (String (digit_char (m mod 10))
  (String "-" (String (digit_char (d / 10)) (String (digit_char (d mod 10))
  EmptyString))))))))).

(** The calendar day after [(y, m, d)]. *)
Definition next_date (y m d : Z) : Z * Z * Z :=
  if d <? SlotUtils.days_in_month y m then (y, m, d + 1)
  else if m <? 12 then (y, m + 1, 1)
  else (y + 1, 1, 1).

End Spec.

(** Rows as the cancellation paths leave them. *)
Module Rows.
Import Store.

(** A row after [cancel_booking]'s [save(update_fields=["status"])] when the
    cancelled booking has primary key [pk]. *)
Definition cancel_row (pk : nat) (row : Booking) : Booking :=
  if Nat.eqb (booking_id row) pk then set_status CANCELLED row else row.

(** A row with the primary key of [b] after [cancel_booking_action]'s final
    [save(update_fields=["status", "cancellation_time", "notes"])], for the
    stripped reason [reason] and the view's clock reading [now2]. *)
Definition cancelled_row (b : Booking) (now2 : Z) (reason : string) (row : Booking) : Booking :=
  mkBooking (booking_id row) (client row) (service row) (staff row) (start_time row)
    (if Views.is_empty reason then notes b
     else (notes b ++ Views.newline ++ "[Cancel reason] " ++ reason)%string)
    CANCELLED
    (match cancellation_time b with None => Some now2 | Some t => Some t end).

End Rows.

Module Fixtures.

(** Times of day on the day starting at second 0. *)
Definition at_hm (h m : Z) : Z := 3600 * h + 60 * m.

Definition ann : ClientProfile := mkClientProfile 1 "Ann" "ann@example.com" "5551234".
Definition haircut : Service := mkService 1 60 true.
Definition trim : Service := mkService 2 30 true.

(** A confirmed 10:00-11:00 booking of staff member 1. *)
Definition b_10 : Booking :=
  mkBooking 1 ann haircut (Some 1%nat) (at_hm 10 0) EmptyString CONFIRMED None.

(** The booking of [b_10] on day 1 of the ordinal calendar, 0001-01-01. *)
Definition b_day1 : Booking :=
  mkBooking 1 ann haircut (Some 1%nat) (86400 + at_hm 10 0) EmptyString CONFIRMED None.

(** The same booking made through a 30-minute service. *)
Definition b_10_trim : Booking :=
  mkBooking 1 ann trim (Some 1%nat) (at_hm 10 0) EmptyString CONFIRMED None.

(** A request for staff member 1 at [t]. *)
Definition request_at (t : Z) : Views.CreateRequest :=
  Views.mkCreateRequest ann haircut (Some 1%nat) t EmptyString.

(** Staff member 1 booked at 9:00, 11:00, 13:00 and 15:00 of day 1. *)
Definition blocked_day : list Booking :=
  map (fun '(pk, h) => mkBooking pk ann haircut (Some 1%nat) (86400 + at_hm h 0)
                                 EmptyString CONFIRMED None)
      [(1%nat, 9); (2%nat, 11); (3%nat, 13); (4%nat, 15)].

End Fixtures.

(* ================================================================== *)
(** * Theorems *)

Ltac bool_facts :=
  repeat match goal with
  | H : (_ && _)%bool = true |- _ => apply andb_prop in H; destruct H
  | H : (_ <? _) = true |- _ => apply Z.ltb_lt in H
  | H : (_ <=? _) = true |- _ => apply Z.leb_le in H
  | H : Nat.eqb _ _ = true |- _ => apply Nat.eqb_eq in H
  end.

Module AvailabilityFacts.
Import AvailabilityEngine Fixtures.





(** Claim C2 (code bug).  A booking cancelled through the API keeps
    blocking its slot: after cancelling the 10:00 booking of staff member 1,
    the conflict check still counts it, so staff member 1 is unavailable at
    10:00 and a new booking there is refused. *)
Theorem C2_cancelled_booking_still_blocks :
  fst (Views.api_cancel 1 0 [b_10]) = [Store.set_status CANCELLED b_10] /\
  snd (Views.api_cancel 1 0 [b_10]) = Store.Ok (Views.mkResponse 200 "Booking cancelled.") /\
  is_slot_available_for_staff [Store.set_status CANCELLED b_10] [] 1 haircut (at_hm 10 0) =
    Store.Ok false /\
  Views.booking_create [] [1%nat] 0 (request_at (at_hm 10 0)) [Store.set_status CANCELLED b_10] =
    ([Store.set_status CANCELLED b_10],
     Store.Ok (Views.mkResponse 400 "No staff available for that time.")).
Proof. vm_compute. repeat split. Qed.

Lemma existsb_false_forall {A} (f : A -> bool) (l : list A) :
  existsb f l = false -> forall x, In x l -> f x = false.
Proof.
  intros H x Hx. destruct (f x) eqn:E; [|reflexivity].
  assert (existsb f l = true) by (apply existsb_exists; eauto). congruence.
Qed.


Lemma has_booking_conflict_keys (bookings : list Booking) (staff : nat)
    (start_time duration_minutes : Z) :
  has_booking_conflict bookings staff start_time duration_minutes =
  existsb (fun p => match fst p with Some s' => Nat.eqb s' staff | None => false end
                    && (snd p <? start_time + timedelta_minutes duration_minutes)
                    && (start_time - timedelta_minutes duration_minutes <=? snd p))
          (map (fun b => (booking_staff b, booking_start_time b)) bookings).
Proof.
  unfold has_booking_conflict. induction bookings as [|b bs IH]; [reflexivity|].
  simpl. rewrite IH. reflexivity.
Qed.

(** Claim C10.  Availability reads only the staff and start time of the
    existing bookings: two booking tables that agree on these, whatever the
    durations (or statuses) of the bookings' services, give the same answer
    to every query. *)
Theorem C10_availability_ignores_existing_durations (bs1 bs2 : list Booking)
    (Hkeys : map (fun b => (booking_staff b, booking_start_time b)) bs1 =
             map (fun b => (booking_staff b, booking_start_time b)) bs2)
    (windows : list StaffAvailability) (staff : nat) (service : Service)
    (start_time : Z) :
  is_slot_available_for_staff bs1 windows staff service start_time =
  is_slot_available_for_staff bs2 windows staff service start_time.
Proof.
  unfold is_slot_available_for_staff.
  rewrite (has_booking_conflict_keys bs1), (has_booking_conflict_keys bs2), Hkeys.
  reflexivity.
Qed.

(** Instance of claim C10: the same 10:00 booking through a 60-minute and
    through a 30-minute service leaves 10:15 equally unavailable. *)
Lemma C10_witness :
  map (fun b => (booking_staff b, booking_start_time b)) [b_10] =
  map (fun b => (booking_staff b, booking_start_time b)) [b_10_trim] /\
  is_slot_available_for_staff [b_10] [] 1 trim (at_hm 10 15) =
  is_slot_available_for_staff [b_10_trim] [] 1 trim (at_hm 10 15).
Proof.
  split; [reflexivity|].
  apply (C10_availability_ignores_existing_durations [b_10] [b_10_trim]).
  reflexivity.
Defined.

End AvailabilityFacts.

Module SlotFacts.
Import SlotUtils.





End SlotFacts.

Module BusinessHoursFacts.
Import SlotUtils.

Lemma time_valid (h m : Z) (t : Time) :
  time h m = Some t -> 0 <= hour t <= 23 /\ 0 <= minute t <= 59.
Proof.
  unfold time. destruct ((0 <=? h) && (h <=? 23) && (0 <=? m) && (m <=? 59)) eqn:E;
    [|discriminate].
  intro H. inversion H; subst. simpl. bool_facts. lia.
Qed.

Lemma parse_hhmm_valid (v : string) (t : Time) :
  parse_hhmm v = Some t -> 0 <= hour t <= 23 /\ 0 <= minute t <= 59.
Proof.
  unfold parse_hhmm.
  destruct (split_colon (list_ascii_of_string v)) as [|h [|m [|x r]]]; try discriminate.
  destruct (py_int h), (py_int m); try discriminate. apply time_valid.
Qed.

Lemma in_zrange (a x : Z) (n : nat) : a <= x < a + Z.of_nat n -> In x (Spec.zrange a n).
Proof.
  intro H. unfold Spec.zrange. apply in_map_iff. exists (Z.to_nat (x - a)).
  split; [lia|]. apply in_seq. lia.
Qed.

Lemma time_opt_eqb_true (x : option Time) (h m : Z) :
  Spec.time_opt_eqb x (Some (mkTime h m)) = true -> x = Some (mkTime h m).
Proof.
  destruct x as [[h' m']|]; simpl; [|discriminate].
  intro H. bool_facts. apply Z.eqb_eq in H. apply Z.eqb_eq in H0. now subst.
Qed.

(** Every strict "HH:MM" value of a valid time of day is parsed to it. *)
Lemma parse_hhmm_strict (h m : Z) :
  0 <= h <= 23 -> 0 <= m <= 59 ->
  parse_hhmm (Spec.hhmm_string h m) = Some (mkTime h m).
Proof.
  intros Hh Hm.
  assert (Hall : forallb (fun h => forallb (fun m =>
             Spec.time_opt_eqb (parse_hhmm (Spec.hhmm_string h m)) (Some (mkTime h m)))
             (Spec.zrange 0 60)) (Spec.zrange 0 24) = true) by (vm_compute; reflexivity).
  rewrite forallb_forall in Hall.
  specialize (Hall h (in_zrange 0 h 24 ltac:(lia))).
  rewrite forallb_forall in Hall.
  specialize (Hall m (in_zrange 0 m 60 ltac:(lia))).
  now apply time_opt_eqb_true.
Qed.

(** Claim C9.  [get_business_hours] returns a pair of valid times of day
    for every state of the settings table (it has no failing outcome);
    when both BUSINESS_OPEN and BUSINESS_CLOSE rows exist with strict
    "HH:MM" values it returns those times; when the table is unavailable,
    a row is missing, or a value fails to parse, it returns 09:00-17:00. *)
Theorem C9_business_hours_total (settings : option (list SystemSetting)) :
  (0 <= hour (fst (get_business_hours settings)) <= 23 /\
   0 <= minute (fst (get_business_hours settings)) <= 59 /\
   0 <= hour (snd (get_business_hours settings)) <= 23 /\
   0 <= minute (snd (get_business_hours settings)) <= 59) /\
  (forall rows orow crow ho mo hc mc,
     settings = Some rows ->
     first_setting rows "BUSINESS_OPEN" = Some orow ->
     first_setting rows "BUSINESS_CLOSE" = Some crow ->
     value orow = Spec.hhmm_string ho mo -> value crow = Spec.hhmm_string hc mc ->
     0 <= ho <= 23 -> 0 <= mo <= 59 -> 0 <= hc <= 23 -> 0 <= mc <= 59 ->
     get_business_hours settings = (mkTime ho mo, mkTime hc mc)) /\
  ((settings = None \/
    exists rows, settings = Some rows /\
      (first_setting rows "BUSINESS_OPEN" = None \/
       first_setting rows "BUSINESS_CLOSE" = None \/
       exists orow crow, first_setting rows "BUSINESS_OPEN" = Some orow /\
         first_setting rows "BUSINESS_CLOSE" = Some crow /\
         (parse_hhmm (value orow) = None \/ parse_hhmm (value crow) = None))) ->
   get_business_hours settings = (default_open, default_close)).
Proof.
  split; [|split].
  - unfold get_business_hours.
    destruct settings as [rows|]; [|simpl; lia].
    destruct (first_setting rows "BUSINESS_OPEN") as [orow|]; [|simpl; lia].
    destruct (first_setting rows "BUSINESS_CLOSE") as [crow|]; [|simpl; lia].
    destruct (parse_hhmm (value orow)) as [o|] eqn:Ho; [|simpl; lia].
    destruct (parse_hhmm (value crow)) as [c|] eqn:Hc; [|simpl; lia].
    simpl. apply parse_hhmm_valid in Ho. apply parse_hhmm_valid in Hc. lia.
  - intros rows orow crow ho mo hc mc -> Ho Hc Vo Vc Hho Hmo Hhc Hmc.
    unfold get_business_hours. rewrite Ho, Hc, Vo, Vc.
    rewrite (parse_hhmm_strict ho mo), (parse_hhmm_strict hc mc) by assumption.
    reflexivity.
  - intros [-> | (rows & -> & [Ho | [Hc | (orow & crow & Ho & Hc & Hp)]])];
      unfold get_business_hours; try reflexivity.
    + rewrite Ho. reflexivity.
    + rewrite Hc. destruct (first_setting rows "BUSINESS_OPEN"); reflexivity.
    + rewrite Ho, Hc. destruct Hp as [Hp | Hp]; rewrite Hp; [reflexivity|].
      destruct (parse_hhmm (value orow)); reflexivity.
Qed.

(** Instance of claim C9: BUSINESS_OPEN = 08:30, BUSINESS_CLOSE = 18:00. *)
Lemma C9_witness :
  get_business_hours (Some [mkSystemSetting "BUSINESS_OPEN" (Spec.hhmm_string 8 30);
                            mkSystemSetting "BUSINESS_CLOSE" (Spec.hhmm_string 18 0)])
  = (mkTime 8 30, mkTime 18 0).
Proof.
  apply (proj1 (proj2 (C9_business_hours_total
           (Some [mkSystemSetting "BUSINESS_OPEN" (Spec.hhmm_string 8 30);
                  mkSystemSetting "BUSINESS_CLOSE" (Spec.hhmm_string 18 0)])))
         [mkSystemSetting "BUSINESS_OPEN" (Spec.hhmm_string 8 30);
          mkSystemSetting "BUSINESS_CLOSE" (Spec.hhmm_string 18 0)]
         (mkSystemSetting "BUSINESS_OPEN" (Spec.hhmm_string 8 30))
         (mkSystemSetting "BUSINESS_CLOSE" (Spec.hhmm_string 18 0)));
    first [reflexivity | lia].
Defined.

End BusinessHoursFacts.

Module LifecycleFacts.
Import Store Fixtures.

(** Claim C3.  A booking request whose start time is at or before now is
    refused with HTTP 400 and the booking table is left as it was; when the
    staff key is valid the refusal is the past-time validation error. *)
Theorem C3_past_start_rejected (windows : list StaffAvailability)
    (roster : list nat) (now : Z) (req : Views.CreateRequest)
    (bookings : list Booking) (Hpast : Views.rq_start_time req <= now) :
  fst (Views.booking_create windows roster now req bookings) = bookings /\
  (exists msg, snd (Views.booking_create windows roster now req bookings) =
               Ok (Views.mkResponse 400 msg)) /\
  ((forall s, Views.rq_staff req = Some s -> In s roster) ->
   snd (Views.booking_create windows roster now req bookings) =
   Ok (Views.mkResponse 400 "Start time must be in the future.")).
Proof.
  assert (Hle : (Views.rq_start_time req <=? now) = true) by (apply Z.leb_le; exact Hpast).
  unfold Views.booking_create, Views.serializer_is_valid.
  destruct (Views.rq_staff req) as [s|] eqn:Hs.
  - destruct (existsb (Nat.eqb s) roster) eqn:Hr; cbn [negb].
    + rewrite Hle. simpl. split; [reflexivity|]. split; [eexists; reflexivity|].
      intros _. reflexivity.
    + simpl. split; [reflexivity|]. split; [eexists; reflexivity|].
      intro Hin. specialize (Hin s eq_refl).
      assert (existsb (Nat.eqb s) roster = true)
        by (apply existsb_exists; exists s; split; [exact Hin | apply Nat.eqb_refl]).
      congruence.
  - rewrite Hle. simpl. split; [reflexivity|]. split; [eexists; reflexivity|].
    intros _. reflexivity.
Qed.

(** Instance of claim C3: a 10:00 request at 11:00. *)
Lemma C3_witness :
  at_hm 10 0 <= at_hm 11 0 /\
  Views.booking_create [] [1%nat] (at_hm 11 0) (request_at (at_hm 10 0)) [] =
  ([], Ok (Views.mkResponse 400 "Start time must be in the future.")).
Proof.
  split; [vm_compute; discriminate|].
  pose proof (C3_past_start_rejected [] [1%nat] (at_hm 11 0) (request_at (at_hm 10 0)) []
                ltac:(vm_compute; discriminate)) as [H1 [_ H3]].
  rewrite <- H3 by (intros s Hs; inversion Hs; left; reflexivity).
  destruct (Views.booking_create _ _ _ _ _) as [st o] eqn:E.
  simpl in H1. subst st. reflexivity.
Defined.

(** Claim C4.  With the default cutoff of 120 minutes, [cancel_booking]
    raises iff the booking starts at most 7200 s after now, and when it
    raises the booking table (hence the booking's status) is unchanged.  A
    booking starting 7201 s after now is cancelled; one starting 7199 s after
    now is not. *)
Theorem C4_cutoff (booking : Booking) (now : Z) (bookings : list Booking) :
  (is_raise (snd (BookingManager.cancel_booking booking now 120 bookings)) = true <->
   booking_start_time booking - now <= 7200) /\
  (is_raise (snd (BookingManager.cancel_booking booking now 120 bookings)) = true ->
   fst (BookingManager.cancel_booking booking now 120 bookings) = bookings) /\
  is_raise (snd (BookingManager.cancel_booking b_10 (at_hm 10 0 - 7201) 120 [b_10])) = false /\
  fst (BookingManager.cancel_booking b_10 (at_hm 10 0 - 7201) 120 [b_10]) =
    [set_status CANCELLED b_10] /\
  is_raise (snd (BookingManager.cancel_booking b_10 (at_hm 10 0 - 7199) 120 [b_10])) = true.
Proof.
  split; [|split; [|vm_compute; repeat split]].
  - unfold BookingManager.cancel_booking, atomic, timedelta_minutes.
    destruct (booking_start_time booking - now <=? 60 * 120) eqn:E.
    + apply Z.leb_le in E. simpl. split; [intros _; lia | reflexivity].
    + apply Z.leb_gt in E. simpl. split; [discriminate | lia].
  - unfold BookingManager.cancel_booking, atomic, timedelta_minutes.
    destruct (booking_start_time booking - now <=? 60 * 120); simpl;
      [reflexivity | discriminate].
Qed.

(** Claim C5 (code bug).  Cancelling through POST /api/bookings/1/cancel/
    three hours ahead succeeds and sets the status to CANCELLED, but the
    stored booking keeps [cancellation_time = None]. *)
Theorem C5_api_cancel_leaves_cancellation_time_unset :
  Views.api_cancel 1 (at_hm 7 0) [b_10] =
    ([set_status CANCELLED b_10], Ok (Views.mkResponse 200 "Booking cancelled.")) /\
  cancellation_time (set_status CANCELLED b_10) = None.
Proof. vm_compute. split; reflexivity. Qed.

(** Claim C6 (code bug).  POST /api/bookings/1/cancel/ accepts a second
    cancellation of an already cancelled booking (HTTP 200 both times),
    while the form path refuses it. *)
Theorem C6_api_cancel_twice_succeeds :
  let '(s1, r1) := Views.api_cancel 1 (at_hm 7 0) [b_10] in
  let '(s2, r2) := Views.api_cancel 1 (at_hm 7 0) s1 in
  r1 = Ok (Views.mkResponse 200 "Booking cancelled.") /\
  status (hd b_10 s1) = CANCELLED /\
  r2 = Ok (Views.mkResponse 200 "Booking cancelled.") /\
  snd (Views.cancel_booking_action
         (Views.mkCancelForm "1" "Ann" "ann@example.com" "5551234" "x")
         (at_hm 7 0) (at_hm 7 0) s1) =
    Ok (Views.mkResponse 400 "This booking is already cancelled.").
Proof. vm_compute. repeat split. Qed.

End LifecycleFacts.

Module EngineCases.
Import Store AvailabilitySlots.

Lemma is_slot_cases (bookings : list Booking) (windows : list StaffAvailability)
    (s : nat) (sv : Service) (t : Z) :
  AvailabilityEngine.is_slot_available_for_staff bookings windows s sv t =
  if AvailabilityEngine.has_booking_conflict bookings s t (duration_minutes sv)
  then Ok false else Raise (RelatedLookupError s).
Proof.
  unfold AvailabilityEngine.is_slot_available_for_staff.
  destruct (AvailabilityEngine.has_booking_conflict _ _ _ _); reflexivity.
Qed.

Lemma free_staff_ids_cases (bookings : list Booking) (windows : list StaffAvailability)
    (sv : Service) (t : Z) (roster : list nat) :
  (free_staff_ids bookings windows sv t roster = Ok [] /\
   forall s, In s roster ->
     AvailabilityEngine.has_booking_conflict bookings s t (duration_minutes sv) = true) \/
  (exists s, In s roster /\
     AvailabilityEngine.has_booking_conflict bookings s t (duration_minutes sv) = false /\
     free_staff_ids bookings windows sv t roster = Raise (RelatedLookupError s)).
Proof.
  induction roster as [|s rest IH]; cbn [free_staff_ids].
  - left. split; [reflexivity|]. intros s [].
  - rewrite is_slot_cases.
    destruct (AvailabilityEngine.has_booking_conflict bookings s t _) eqn:Hc; cbn [obind].
    + destruct IH as [[E Hall] | (s' & Hin & Hc' & E)]; rewrite E; cbn [obind].
      * left. split; [reflexivity|]. intros x [<-|Hx]; auto.
      * right. exists s'. split; [right; exact Hin|]. auto.
    + right. exists s. split; [left; reflexivity|]. auto.
Qed.

Lemma collect_slots_cases (bookings : list Booking) (windows : list StaffAvailability)
    (sv : Service) (roster : list nat) (slots : list Z) :
  (collect_slots bookings windows sv roster slots = Ok [] /\
   forall t s, In t slots -> In s roster ->
     AvailabilityEngine.has_booking_conflict bookings s t (duration_minutes sv) = true) \/
  (exists t s, In t slots /\ In s roster /\
     AvailabilityEngine.has_booking_conflict bookings s t (duration_minutes sv) = false /\
     collect_slots bookings windows sv roster slots = Raise (RelatedLookupError s)).
Proof.
  induction slots as [|t rest IH]; cbn [collect_slots].
  - left. split; [reflexivity|]. intros t s [].
  - destruct (free_staff_ids_cases bookings windows sv t roster)
      as [[E Hall] | (s & Hin & Hc & E)]; rewrite E; cbn [obind].
    + destruct IH as [[E' Hall'] | (t' & s & Ht & Hs & Hc & E')]; rewrite E'; cbn [obind].
      * left. split; [reflexivity|]. intros t' s [<-|Ht] Hs; auto.
      * right. exists t', s. split; [right; exact Ht|]. auto.
    + right. exists t, s. split; [left; reflexivity|]. auto.
Qed.

Lemma first_free_cases (bookings : list Booking) (windows : list StaffAvailability)
    (sv : Service) (t : Z) (roster : list nat) (d : option nat) :
  Views.first_free
    (fun s => AvailabilityEngine.is_slot_available_for_staff bookings windows s sv t) roster d =
  match find (fun s => negb (AvailabilityEngine.has_booking_conflict bookings s t
                               (duration_minutes sv))) roster with
  | Some s => Raise (RelatedLookupError s)
  | None => Ok d
  end.
Proof.
  induction roster as [|s rest IH]; cbn [Views.first_free find]; [reflexivity|].
  rewrite is_slot_cases.
  destruct (AvailabilityEngine.has_booking_conflict bookings s t _); cbn [obind negb].
  - exact IH.
  - reflexivity.
Qed.

End EngineCases.

Module SlotListingFacts.
Import SlotUtils AvailabilitySlots Store Fixtures.





(** GET /api/bookings/availability/ never offers a slot: whenever it answers
    with a slot listing, the listing is empty. *)
Theorem availability_never_offers (bookings : list Booking)
    (windows : list StaffAvailability) (settings : option (list SystemSetting))
    (roster : list nat) (service : Service) (date_str : string) (now : Z)
    (l : list (Z * list nat))
    (H : Views.availability bookings windows settings roster service date_str now =
         Some (Ok (Views.SlotsResponse l))) :
  l = [].
Proof.
  unfold Views.availability in H.
  destruct (date_to_range date_str) as [[ds de]|]; [|discriminate].
  unfold find_available_slots in H.
  destruct (generate_slots_for_day _ _ _ _ _) as [slots|]; [|discriminate].
  destruct (EngineCases.collect_slots_cases bookings windows service roster slots)
    as [[E _] | (t & s & _ & _ & _ & E)]; rewrite E in H.
  - inversion H. reflexivity.
  - discriminate.
Qed.

(** Instance: staff member 1, booked at 9:00, 11:00, 13:00 and 15:00 of
    0001-01-01, is asked for on that day. *)
Lemma availability_never_offers_witness :
  Views.availability blocked_day [] None [1%nat] haircut (Spec.date_string 1 1 1) 0 =
    Some (Ok (Views.SlotsResponse [])) /\ @nil (Z * list nat) = [].
Proof.
  assert (H : Views.availability blocked_day [] None [1%nat] haircut (Spec.date_string 1 1 1) 0 =
    Some (Ok (Views.SlotsResponse []))) by (vm_compute; reflexivity).
  split; [exact H|].
  exact (availability_never_offers blocked_day [] None [1%nat] haircut
           (Spec.date_string 1 1 1) 0 [] H).
Defined.

End SlotListingFacts.

Module ManagerFacts.
Import Store Fixtures.

Lemma next_pk_gt (s : list Booking) (row : Booking) :
  In row s -> (booking_id row < next_pk s)%nat.
Proof.
  unfold next_pk. induction s as [|r rs IH]; simpl; [tauto|].
  intros [<-|Hin]; [lia|]. specialize (IH Hin). lia.
Qed.

(** [create_booking] run against the table [bookings]. *)
Lemma create_booking_cases (windows : list StaffAvailability) (c : ClientProfile)
    (sv : Service) (st : option nat) (t : Z) (n : string) (bookings : list Booking) :
  BookingManager.create_booking windows c sv st t n bookings =
    let nb := mkBooking (next_pk bookings) c sv st t n CONFIRMED None in
    match st with
    | Some s =>
        (bookings,
         Raise (if AvailabilityEngine.has_booking_conflict bookings s t (duration_minutes sv)
                then ValueError "Selected time overlaps with an existing booking for this staff."
                else RelatedLookupError s))
    | None => (bookings ++ [nb], Ok nb)
    end.
Proof.
  unfold BookingManager.create_booking, atomic, bind, get, of_outcome, objects_create, raise.
  destruct st as [s|]; [|reflexivity].
  rewrite EngineCases.is_slot_cases.
  destruct (AvailabilityEngine.has_booking_conflict _ _ _ _); reflexivity.
Qed.

(** [cancel_booking] run against the table [s]. *)
Lemma cancel_booking_cases (booking : Booking) (now cutoff : Z) (s : list Booking) :
  BookingManager.cancel_booking booking now cutoff s =
    if booking_start_time booking - now <=? timedelta_minutes cutoff
    then (s, Raise (ValueError "Cannot cancel within 2 hours of appointment start."))
    else (map (Rows.cancel_row (booking_id booking)) s,
          Ok (set_status CANCELLED booking, true)).
Proof.
  unfold BookingManager.cancel_booking, atomic, bind, save, ret, raise.
  destruct (_ <=? _); reflexivity.
Qed.

(** [create_booking] succeeds only for a booking without staff member, and
    then appends exactly one row: a CONFIRMED booking without cancellation
    time, whose primary key differs from every existing one. *)
Theorem create_booking_success (windows : list StaffAvailability) (c : ClientProfile)
    (sv : Service) (st : option nat) (t : Z) (n : string) (bookings s' : list Booking)
    (b : Booking)
    (H : BookingManager.create_booking windows c sv st t n bookings = (s', Ok b)) :
  st = None /\
  s' = bookings ++ [b] /\
  b = mkBooking (next_pk bookings) c sv None t n CONFIRMED None /\
  (forall row, In row bookings -> booking_id row <> booking_id b).
Proof.
  rewrite create_booking_cases in H. cbv zeta in H.
  destruct st as [s|]; [discriminate|].
  inversion H; subst. split; [reflexivity|]. split; [reflexivity|]. split; [reflexivity|].
  intros row Hin. apply next_pk_gt in Hin. simpl. lia.
Qed.

Lemma create_booking_success_witness :
  BookingManager.create_booking [] ann haircut None (at_hm 10 0) EmptyString [b_10] =
    ([b_10] ++ [mkBooking 2 ann haircut None (at_hm 10 0) EmptyString CONFIRMED None],
     Ok (mkBooking 2 ann haircut None (at_hm 10 0) EmptyString CONFIRMED None)) /\
  @None nat = None /\
  [b_10] ++ [mkBooking 2 ann haircut None (at_hm 10 0) EmptyString CONFIRMED None]
    = [b_10] ++ [mkBooking 2 ann haircut None (at_hm 10 0) EmptyString CONFIRMED None] /\
  mkBooking 2 ann haircut None (at_hm 10 0) EmptyString CONFIRMED None
    = mkBooking (next_pk [b_10]) ann haircut None (at_hm 10 0) EmptyString CONFIRMED None /\
  (forall row, In row [b_10] -> booking_id row <> 2%nat).
Proof.
  assert (H : BookingManager.create_booking [] ann haircut None (at_hm 10 0) EmptyString [b_10] =
    ([b_10] ++ [mkBooking 2 ann haircut None (at_hm 10 0) EmptyString CONFIRMED None],
     Ok (mkBooking 2 ann haircut None (at_hm 10 0) EmptyString CONFIRMED None)))
    by reflexivity.
  split; [exact H|].
  exact (create_booking_success [] ann haircut None (at_hm 10 0) EmptyString [b_10] _ _ H).
Defined.


(** [cancel_booking] never deletes or adds a row: the primary keys of the
    table are unchanged, and each row either stays as it was or, if it has
    the booking's primary key, only has its status set to CANCELLED. *)
Theorem cancel_booking_keeps_rows (booking : Booking) (now cutoff : Z) (s : list Booking) :
  let s' := fst (BookingManager.cancel_booking booking now cutoff s) in
  map booking_id s' = map booking_id s /\
  Forall2 (fun row row' => row' = row \/
             (booking_id row = booking_id booking /\ row' = set_status CANCELLED row)) s s'.
Proof.
  cbv zeta. rewrite cancel_booking_cases.
  destruct (_ <=? _); cbn [fst].
  - split; [reflexivity|]. induction s; constructor; auto.
  - split.
    + rewrite map_map. apply map_ext. intro row. unfold Rows.cancel_row.
      destruct (Nat.eqb _ _); reflexivity.
    + induction s as [|row rs IH]; constructor; auto.
      unfold Rows.cancel_row.
      destruct (Nat.eqb (booking_id row) (booking_id booking)) eqn:E;
        [right; split; [apply Nat.eqb_eq|]|left]; auto.
Qed.

End ManagerFacts.

Module ViewFacts.
Import Store Fixtures.


(** An early [return Response(...)] of a view: the table is unchanged and
    the status code is not the success code. *)
Ltac early H :=
  cbn -[AvailabilityEngine.is_slot_available_for_staff find] in H;
  inversion H; subst; split; [intros _; reflexivity | cbn; intros; discriminate].



(** POST /bookings/cancel/submit/ changes the table only when it answers
    200.  Then the booking it cancelled was CONFIRMED, started more than 120
    minutes after [now1], and matches the submitted name, email (both
    compared stripped and lower-cased) and phone (stripped); every row with
    its primary key is set to CANCELLED with the cancellation time kept or
    set to [now2] and the reason appended to the notes, and every other row
    is unchanged. *)
Theorem cancel_booking_action_effect (form : Views.CancelForm) (now1 now2 : Z)
    (s s' : list Booking) (r : Views.Response)
    (H : Views.cancel_booking_action form now1 now2 s = (s', Ok r)) :
  (Views.code r <> 200 -> s' = s) /\
  (Views.code r = 200 ->
     exists b, In b s /\ status b = CONFIRMED /\ 7200 < booking_start_time b - now1 /\
       Views.lower (Views.py_strip (client_name (client b)))
         = Views.lower (Views.py_strip (Views.f_name form)) /\
       Views.lower (Views.py_strip (client_email (client b)))
         = Views.lower (Views.py_strip (Views.f_email form)) /\
       Views.py_strip (client_phone (client b)) = Views.py_strip (Views.f_phone form) /\
       s' = map (fun row => if Nat.eqb (booking_id row) (booking_id b)
                            then Rows.cancelled_row b now2 (Views.py_strip (Views.f_reason form)) row
                            else row) s).
Proof.
  unfold Views.cancel_booking_action, bind, get, ret, try_except in H.
  destruct (_ || _); [early H|].
  destruct (negb _); [early H|].
  destruct (SlotUtils.py_int _) as [bid|]; [|early H].
  destruct (find _ s) as [b|] eqn:Hf; [|early H].
  destruct (negb (String.eqb (Views.lower (Views.py_strip (client_name (client b)))) _)) eqn:En;
    [early H|].
  destruct (negb (String.eqb (Views.lower (Views.py_strip (client_email (client b)))) _)) eqn:Ee;
    [early H|].
  destruct (negb (String.eqb (Views.py_strip (client_phone (client b))) _)) eqn:Ep;
    [early H|].
  destruct (status_eqb (status b) CANCELLED) eqn:Es; [early H|].
  rewrite ManagerFacts.cancel_booking_cases in H.
  unfold timedelta_minutes in H.
  destruct (booking_start_time b - now1 <=? 60 * 120) eqn:Ec; [early H|].
  cbn in H. inversion H; subst; clear H.
  split; [cbn; intro Hc; exfalso; apply Hc; reflexivity|]. intros _.
  apply find_some in Hf. destruct Hf as [Hin _].
  apply negb_false_iff, String.eqb_eq in En, Ee, Ep.
  apply Z.leb_gt in Ec.
  exists b. split; [exact Hin|]. split; [destruct (status b); [reflexivity|discriminate]|].
  split; [lia|]. split; [exact En|]. split; [exact Ee|]. split; [exact Ep|].
  rewrite map_map. apply map_ext. intro row.
  unfold Rows.cancel_row, Rows.cancelled_row.
  destruct (booking_id row =? booking_id b)%nat eqn:E;
    destruct (cancellation_time b) eqn:Ect;
    destruct (Views.is_empty (Views.py_strip (Views.f_reason form))) eqn:Er;
    cbn; rewrite ?E, ?Ect, ?Er; reflexivity.
Qed.

Lemma cancel_booking_action_effect_witness :
  let form := Views.mkCancelForm " 1" "ann" "ANN@example.com " "5551234" "moved" in
  Views.cancel_booking_action form 0 5 [b_10] =
    ([Rows.cancelled_row b_10 5 "moved" b_10],
     Ok (Views.mkResponse 200 "Your booking has been cancelled.")) /\
  (200 <> 200 -> [Rows.cancelled_row b_10 5 "moved" b_10] = [b_10]) /\
  (200 = 200 ->
     exists b, In b [b_10] /\ status b = CONFIRMED /\ 7200 < booking_start_time b - 0 /\
       Views.lower (Views.py_strip (client_name (client b)))
         = Views.lower (Views.py_strip (Views.f_name form)) /\
       Views.lower (Views.py_strip (client_email (client b)))
         = Views.lower (Views.py_strip (Views.f_email form)) /\
       Views.py_strip (client_phone (client b)) = Views.py_strip (Views.f_phone form) /\
       [Rows.cancelled_row b_10 5 "moved" b_10] =
         map (fun row => if Nat.eqb (booking_id row) (booking_id b)
                         then Rows.cancelled_row b 5 (Views.py_strip (Views.f_reason form)) row
                         else row) [b_10]).
Proof.
  intro form.
  assert (H : Views.cancel_booking_action form 0 5 [b_10] =
    ([Rows.cancelled_row b_10 5 "moved" b_10],
     Ok (Views.mkResponse 200 "Your booking has been cancelled."))) by (vm_compute; reflexivity).
  split; [exact H|].
  exact (cancel_booking_action_effect form 0 5 [b_10] _ _ H).
Defined.

(** POST /api/bookings/ run against the table [s]. *)
Lemma booking_create_cases (windows : list StaffAvailability) (roster : list nat)
    (now : Z) (req : Views.CreateRequest) (s : list Booking) :
  Views.booking_create windows roster now req s =
  (s, match Views.serializer_is_valid roster now req with
      | Some e => Ok (Views.mkResponse 400 e)
      | None =>
        if negb (active (Views.rq_service req))
        then Ok (Views.mkResponse 400 "This service is not currently available.")
        else
          match find (fun st => negb (AvailabilityEngine.has_booking_conflict s st
                                        (Views.rq_start_time req)
                                        (duration_minutes (Views.rq_service req))))
                     (match Views.rq_staff req with
                      | Some s0 => s0 :: roster
                      | None => roster
                      end) with
          | Some st => Raise (RelatedLookupError st)
          | None => Ok (Views.mkResponse 400 "No staff available for that time.")
          end
      end).
Proof.
  unfold Views.booking_create, bind, get, ret, of_outcome.
  destruct (Views.serializer_is_valid roster now req); [reflexivity|].
  destruct (negb (active (Views.rq_service req))); [reflexivity|].
  destruct (Views.rq_staff req) as [s0|].
  - rewrite EngineCases.is_slot_cases. cbn [find].
    destruct (AvailabilityEngine.has_booking_conflict s s0 _ _) eqn:Hc0; cbn [obind negb].
    + rewrite EngineCases.first_free_cases.
      destruct (find _ roster); [reflexivity|].
      rewrite EngineCases.is_slot_cases, Hc0. reflexivity.
    + reflexivity.
  - rewrite EngineCases.first_free_cases.
    destruct (find _ roster); reflexivity.
Qed.

(** POST /api/bookings/ never creates a booking: it leaves the table as it
    was, and every response it gives is a 400; a 201 never happens. *)
Theorem booking_create_never_creates (windows : list StaffAvailability) (roster : list nat)
    (now : Z) (req : Views.CreateRequest) (s : list Booking) :
  fst (Views.booking_create windows roster now req s) = s /\
  (forall r, snd (Views.booking_create windows roster now req s) = Ok r -> Views.code r = 400).
Proof.
  rewrite booking_create_cases. cbn [fst snd]. split; [reflexivity|].
  intros r H.
  destruct (Views.serializer_is_valid roster now req); [inversion H; reflexivity|].
  destruct (negb _); [inversion H; reflexivity|].
  destruct (find _ _); inversion H; reflexivity.
Qed.



End ViewFacts.

Module EngineFacts.
Import Fixtures.

Lemma slot_loop_nonpositive (fuel : nat) (slot current day_close : Z) :
  slot <= 0 -> current + slot <= day_close ->
  SlotUtils.slot_loop fuel slot current day_close = None.
Proof.
  intros Hs. revert current. induction fuel as [|f IH]; intros current Hc; [reflexivity|].
  cbn [SlotUtils.slot_loop]. destruct (current + slot <=? day_close) eqn:E; [|lia].
  rewrite IH by lia. reflexivity.
Qed.

(** With a non-positive service duration, [generate_slots_for_day] never
    returns when the first step does not pass the closing time: the
    [while] loop does not advance. *)
Theorem generate_slots_nonpositive_duration (D : Z) (o c : SlotUtils.Time)
    (date_start : Z) (settings : option (list SystemSetting))
    (HD : D <= 0)
    (Hoc : 3600 * SlotUtils.hour o + 60 * SlotUtils.minute o + 60 * D
           <= 3600 * SlotUtils.hour c + 60 * SlotUtils.minute c) :
  SlotUtils.generate_slots_for_day D (Some o) (Some c) date_start settings = None.
Proof.
  unfold SlotUtils.generate_slots_for_day, timedelta_minutes.
  apply slot_loop_nonpositive; lia.
Qed.

Lemma generate_slots_nonpositive_duration_witness :
  0 <= 0 /\
  SlotUtils.generate_slots_for_day 0 (Some SlotUtils.default_open)
    (Some SlotUtils.default_close) 0 None = None.
Proof.
  split; [lia|].
  apply (generate_slots_nonpositive_duration 0 SlotUtils.default_open
           SlotUtils.default_close 0 None); cbn; lia.
Defined.

Lemma has_booking_conflict_incl (bs1 bs2 : list Booking) (staff : nat) (t D : Z) :
  incl bs1 bs2 ->
  AvailabilityEngine.has_booking_conflict bs1 staff t D = true ->
  AvailabilityEngine.has_booking_conflict bs2 staff t D = true.
Proof.
  intros Hincl H. unfold AvailabilityEngine.has_booking_conflict in *.
  apply existsb_exists in H. destruct H as (b & Hin & Hb).
  apply existsb_exists. exists b. split; [apply Hincl; exact Hin|exact Hb].
Qed.

(** More bookings never free a slot: if the availability check answers
    false for a staff member against a table, it answers false against
    every table holding all of its rows. *)
Theorem slot_unavailability_monotone (bs1 bs2 : list Booking)
    (windows : list StaffAvailability) (staff : nat) (service : Service) (t : Z)
    (Hincl : incl bs1 bs2)
    (H : AvailabilityEngine.is_slot_available_for_staff bs1 windows staff service t =
         Store.Ok false) :
  AvailabilityEngine.is_slot_available_for_staff bs2 windows staff service t = Store.Ok false.
Proof.
  rewrite EngineCases.is_slot_cases in *.
  destruct (AvailabilityEngine.has_booking_conflict bs1 _ _ _) eqn:H1; [|discriminate].
  rewrite (has_booking_conflict_incl bs1 bs2 staff t _ Hincl H1). reflexivity.
Qed.

Lemma slot_unavailability_monotone_witness :
  incl [b_10] [b_day1; b_10] /\
  AvailabilityEngine.is_slot_available_for_staff [b_10] [] 1 haircut (at_hm 10 30) =
    Store.Ok false /\
  AvailabilityEngine.is_slot_available_for_staff [b_day1; b_10] [] 1 haircut (at_hm 10 30) =
    Store.Ok false.
Proof.
  assert (Hi : incl [b_10] [b_day1; b_10]) by (intros x [<-|[]]; right; left; reflexivity).
  assert (H : AvailabilityEngine.is_slot_available_for_staff [b_10] [] 1 haircut
    (at_hm 10 30) = Store.Ok false) by reflexivity.
  split; [exact Hi|]. split; [exact H|].
  exact (slot_unavailability_monotone [b_10] [b_day1; b_10] [] 1 haircut _ Hi H).
Defined.



End EngineFacts.

Module CalendarFacts.
Import SlotUtils.

Lemma digit_char_facts (d : Z) :
  0 <= d <= 9 ->
  is_digit (Spec.digit_char d) = true /\ digit_value (Spec.digit_char d) = d /\
  Ascii.eqb (Spec.digit_char d) "-"%char = false.
Proof.
  intro H. assert (d = 0 \/ d = 1 \/ d = 2 \/ d = 3 \/ d = 4 \/ d = 5 \/ d = 6 \/ d = 7
                   \/ d = 8 \/ d = 9) as Hd by lia.
  repeat destruct Hd as [Hd|Hd]; subst d; repeat split.
Qed.

Lemma digit_not_space (c : ascii) : is_digit c = true -> is_py_space c = false.
Proof.
  unfold is_digit, is_py_space. intro H. apply andb_prop in H. destruct H as [H1 H2].
  apply Nat.leb_le in H1, H2.
  destruct (Nat.leb 9 (nat_of_ascii c)) eqn:E1; destruct (Nat.leb (nat_of_ascii c) 13) eqn:E2;
  destruct (Nat.leb 28 (nat_of_ascii c)) eqn:E3; destruct (Nat.leb (nat_of_ascii c) 32) eqn:E4;
  cbn; try reflexivity; apply Nat.leb_le in E2 || apply Nat.leb_le in E4; lia.
Qed.

Lemma py_int_digits (l : list ascii) :
  l <> [] -> forallb is_digit l = true -> py_int l = parse_digits l 0 false.
Proof.
  intros Hne Hall.
  assert (Hs : strip l = l).
  { unfold strip.
    assert (Hl : forall l', forallb is_digit l' = true -> l' <> [] -> lstrip l' = l').
    { intros [|c r] H1 H2; [contradiction|]. cbn in H1. apply andb_prop in H1.
      cbn. rewrite digit_not_space by apply H1. reflexivity. }
    rewrite (Hl l Hall Hne).
    rewrite Hl; [apply rev_involutive| |].
    - rewrite forallb_forall in *. intros x Hx. apply Hall. apply in_rev. exact Hx.
    - intro Hr. apply Hne. destruct l; [reflexivity|]. cbn in Hr.
      destruct (rev l); discriminate. }
  unfold py_int. rewrite Hs.
  destruct l as [|c r]; [contradiction|].
  cbn in Hall. apply andb_prop in Hall. destruct Hall as [Hc _].
  destruct c as [[] [] [] [] [] [] [] []]; try discriminate Hc; reflexivity.
Qed.

Lemma parse_digit_list (ds : list Z) (acc : Z) (prev : bool) :
  ds <> [] -> Forall (fun d => 0 <= d <= 9) ds ->
  parse_digits (map Spec.digit_char ds) acc prev = Some (fold_left (fun a d => a * 10 + d) ds acc).
Proof.
  revert acc prev. induction ds as [|d r IH]; intros acc prev Hne Hall; [contradiction|].
  inversion Hall as [|? ? Hd Hr]; subst.
  destruct (digit_char_facts d Hd) as (H1 & H2 & _).
  cbn [map parse_digits]. rewrite H1, H2.
  destruct r as [|d' r'].
  - reflexivity.
  - apply IH; [discriminate|exact Hr].
Qed.

Lemma py_int_digit_list (ds : list Z) :
  ds <> [] -> Forall (fun d => 0 <= d <= 9) ds ->
  py_int (map Spec.digit_char ds) = Some (fold_left (fun a d => a * 10 + d) ds 0).
Proof.
  intros Hne Hall. rewrite py_int_digits.
  - apply parse_digit_list; assumption.
  - destruct ds; [contradiction|discriminate].
  - apply forallb_forall. intros c Hc. apply in_map_iff in Hc.
    destruct Hc as (d & <- & Hd). rewrite Forall_forall in Hall.
    apply digit_char_facts, Hall, Hd.
Qed.

Lemma split_date_chars (ys ms ds : list Z) :
  Forall (fun d => 0 <= d <= 9) (ys ++ ms ++ ds) ->
  split_on "-"%char (map Spec.digit_char ys ++ "-"%char :: map Spec.digit_char ms
                     ++ "-"%char :: map Spec.digit_char ds) =
  [map Spec.digit_char ys; map Spec.digit_char ms; map Spec.digit_char ds].
Proof.
  intro Hall. rewrite Forall_forall in Hall.
  assert (Hsplit : forall (l : list Z) rest p ps,
             (forall d, In d l -> 0 <= d <= 9) ->
             split_on "-"%char rest = p :: ps ->
             split_on "-"%char (map Spec.digit_char l ++ rest) = (map Spec.digit_char l ++ p) :: ps).
  { intros l rest p ps Hl Hr. induction l as [|d l IHl]; [exact Hr|].
    cbn [map app split_on]. rewrite IHl by (intros x Hx; apply Hl; right; exact Hx).
    destruct (digit_char_facts d (Hl d (or_introl eq_refl))) as (_ & _ & He).
    rewrite He. reflexivity. }
  rewrite (Hsplit ys _ [] [map Spec.digit_char ms; map Spec.digit_char ds]);
    [rewrite app_nil_r; reflexivity | intros x Hx; apply Hall; apply in_or_app; left; exact Hx|].
  assert (Hds : split_on "-"%char (map Spec.digit_char ds) = [map Spec.digit_char ds]).
  { rewrite <- (app_nil_r (map Spec.digit_char ds)) at 1.
    rewrite (Hsplit ds [] [] []); [rewrite app_nil_r; reflexivity| |reflexivity].
    intros x Hx; apply Hall; apply in_or_app; right; apply in_or_app; right; exact Hx. }
  assert (Hms : split_on "-"%char (map Spec.digit_char ms ++ "-"%char :: map Spec.digit_char ds)
                = [map Spec.digit_char ms; map Spec.digit_char ds]).
  { rewrite (Hsplit ms _ [] [map Spec.digit_char ds]); [rewrite app_nil_r; reflexivity| |].
    - intros x Hx; apply Hall; apply in_or_app; right; apply in_or_app; left; exact Hx.
    - cbn [split_on]. rewrite Hds. reflexivity. }
  cbn [split_on]. rewrite Hms. reflexivity.
Qed.

Lemma map_three {A B} (f : A -> B) (a b c : A) : map f [a; b; c] = [f a; f b; f c].
Proof. reflexivity. Qed.

Lemma date_string_chars (y m d : Z) :
  list_ascii_of_string (Spec.date_string y m d) =
  map Spec.digit_char [y / 1000; y / 100 mod 10; y / 10 mod 10; y mod 10]
  ++ "-"%char :: map Spec.digit_char [m / 10; m mod 10]
  ++ "-"%char :: map Spec.digit_char [d / 10; d mod 10].
Proof. reflexivity. Qed.

Lemma date_to_range_date_string (y m d : Z) :
  0 <= y <= 9999 -> 0 <= m <= 99 -> 0 <= d <= 99 ->
  date_to_range (Spec.date_string y m d) =
  if check_date_fields y m d && (ymd2ord y m d <? MAXORDINAL)
  then Some (ymd2ord y m d * 86400, ymd2ord y m d * 86400 + 86400) else None.
Proof.
  intros Hy Hm Hd. unfold date_to_range.
  rewrite date_string_chars, split_date_chars
    by (cbn [app]; repeat apply Forall_cons; try apply Forall_nil; Z.div_mod_to_equations; lia).
  rewrite (map_three py_int).
  rewrite !py_int_digit_list by (discriminate || (repeat apply Forall_cons; try apply Forall_nil; Z.div_mod_to_equations; lia)).
  cbn [fold_left].
  replace ((((0 * 10 + y / 1000) * 10 + y / 100 mod 10) * 10 + y / 10 mod 10) * 10 + y mod 10)
    with y by (Z.div_mod_to_equations; lia).
  replace ((0 * 10 + m / 10) * 10 + m mod 10) with m by (Z.div_mod_to_equations; lia).
  replace ((0 * 10 + d / 10) * 10 + d mod 10) with d by (Z.div_mod_to_equations; lia).
  unfold midnight, add_one_day. destruct (check_date_fields y m d); [|reflexivity].
  rewrite Z.div_mul by lia. cbn [andb].
  destruct (ymd2ord y m d <? MAXORDINAL) eqn:E.
  - apply Z.ltb_lt in E. replace (ymd2ord y m d + 1 <=? MAXORDINAL) with true
      by (symmetry; apply Z.leb_le; lia). reflexivity.
  - apply Z.ltb_ge in E. replace (ymd2ord y m d + 1 <=? MAXORDINAL) with false
      by (symmetry; apply Z.leb_gt; lia). reflexivity.
Qed.

Lemma days_in_month_range (y m : Z) : 28 <= days_in_month y m <= 31.
Proof.
  unfold days_in_month. destruct ((m =? 2) && is_leap y); [lia|].
  unfold DAYS_IN_MONTH.
  repeat match goal with |- context [match ?x with _ => _ end] => destruct x end; lia.
Qed.

Lemma days_before_year_succ (y : Z) :
  days_before_year (y + 1) = days_before_year y + 365 + (if is_leap y then 1 else 0).
Proof.
  unfold days_before_year, is_leap.
  replace (y + 1 - 1) with y by lia.
  destruct (y mod 4 =? 0) eqn:E4; destruct (y mod 100 =? 0) eqn:E100;
    destruct (y mod 400 =? 0) eqn:E400; cbn [andb orb negb];
    rewrite ?Z.eqb_eq, ?Z.eqb_neq in E4, E100, E400;
    Z.div_mod_to_equations; lia.
Qed.

Lemma days_before_month_succ (y m : Z) :
  1 <= m <= 11 ->
  days_before_month y (m + 1) = days_before_month y m + days_in_month y m.
Proof.
  intro Hm.
  assert (m = 1 \/ m = 2 \/ m = 3 \/ m = 4 \/ m = 5 \/ m = 6 \/ m = 7 \/ m = 8 \/ m = 9
          \/ m = 10 \/ m = 11) as Hc by lia.
  unfold days_before_month, days_in_month.
  repeat destruct Hc as [Hc|Hc]; subst m; destruct (is_leap y); reflexivity.
Qed.

Theorem ymd2ord_next_date (y m d : Z)
    (Hv : check_date_fields y m d = true)
    (Hlast : (y, m, d) <> (9999, 12, 31)) :
  let '(y', m', d') := Spec.next_date y m d in
  check_date_fields y' m' d' = true /\ ymd2ord y' m' d' = ymd2ord y m d + 1.
Proof.
  unfold check_date_fields in Hv. repeat rewrite andb_true_iff in Hv.
  rewrite !Z.leb_le in Hv. destruct Hv as (((((Hy1 & Hy2) & Hm1) & Hm2) & Hd1) & Hd2).
  pose proof (days_in_month_range y m) as Hdim.
  unfold Spec.next_date.
  destruct (d <? days_in_month y m) eqn:Ed.
  - apply Z.ltb_lt in Ed. unfold check_date_fields, ymd2ord.
    split; [|lia]. repeat rewrite andb_true_iff. rewrite !Z.leb_le. lia.
  - apply Z.ltb_ge in Ed. assert (d = days_in_month y m) by lia. subst d.
    destruct (m <? 12) eqn:Em.
    + apply Z.ltb_lt in Em. unfold ymd2ord.
      rewrite days_before_month_succ by lia.
      split; [|lia].
      pose proof (days_in_month_range y (m + 1)).
      unfold check_date_fields. repeat rewrite andb_true_iff. rewrite !Z.leb_le. lia.
    + apply Z.ltb_ge in Em. assert (m = 12) by lia. subst m.
      assert (Hy : y < 9999).
      { destruct (Z.eq_dec y 9999); [|lia]. subst y. exfalso. apply Hlast. reflexivity. }
      split.
      * unfold check_date_fields. repeat rewrite andb_true_iff. rewrite !Z.leb_le.
        unfold days_in_month. cbn. lia.
      * unfold ymd2ord. rewrite days_before_year_succ.
        unfold days_before_month, days_in_month. cbn.
        destruct (is_leap y); cbn; lia.
Qed.

(** [date_to_range] on a zero-padded "YYYY-MM-DD" string accepts it exactly
    when the fields form a date of the proleptic Gregorian calendar in
    years 1..9999 other than the last one, 9999-12-31 (ordinal
    [MAXORDINAL]), whose day end overflows; the range is then the 86400
    seconds from the date's midnight, [ymd2ord * 86400]. *)
Theorem date_to_range_round_trip (y m d : Z)
    (Hy : 0 <= y <= 9999) (Hm : 0 <= m <= 99) (Hd : 0 <= d <= 99) (r : Z * Z) :
  date_to_range (Spec.date_string y m d) = Some r <->
  check_date_fields y m d = true /\ ymd2ord y m d < MAXORDINAL /\
  r = (ymd2ord y m d * 86400, ymd2ord y m d * 86400 + 86400).
Proof.
  rewrite date_to_range_date_string by assumption.
  destruct (check_date_fields y m d); cbn [andb].
  - destruct (ymd2ord y m d <? MAXORDINAL) eqn:E.
    + apply Z.ltb_lt in E.
      split; [intro H; inversion H; auto|intros (_ & _ & ->); reflexivity].
    + apply Z.ltb_ge in E. split; [discriminate|intros (_ & H & _); lia].
  - split; [discriminate|intros [H _]; discriminate].
Qed.

Lemma date_to_range_round_trip_witness :
  (0 <= 2024 <= 9999 /\ 0 <= 2 <= 99 /\ 0 <= 29 <= 99) /\
  date_to_range (Spec.date_string 2024 2 29) = Some (63844848000, 63844934400).
Proof.
  split; [lia|].
  apply (date_to_range_round_trip 2024 2 29 ltac:(lia) ltac:(lia) ltac:(lia)).
  split; [reflexivity|]. split; [vm_compute; reflexivity|reflexivity].
Defined.

(** The ranges [date_to_range] gives to a date and to the next calendar day
    are adjacent: the next day starts where the day ends, for every date
    whose next day is not 9999-12-31, the date [date_to_range] rejects. *)
Theorem date_to_range_consecutive (y m d : Z)
    (Hv : check_date_fields y m d = true)
    (Hlast : ymd2ord y m d + 1 < MAXORDINAL) :
  let '(y', m', d') := Spec.next_date y m d in
  exists a, date_to_range (Spec.date_string y m d) = Some (a, a + 86400) /\
            date_to_range (Spec.date_string y' m' d') = Some (a + 86400, a + 2 * 86400).
Proof.
  assert (Hne : (y, m, d) <> (9999, 12, 31)).
  { intro E. inversion E; subst. vm_compute in Hlast. discriminate. }
  pose proof (ymd2ord_next_date y m d Hv Hne) as Hn.
  destruct (Spec.next_date y m d) as [[y' m'] d'].
  destruct Hn as [Hv' Ho].
  assert (Hr : forall a b c, check_date_fields a b c = true ->
                 0 <= a <= 9999 /\ 0 <= b <= 99 /\ 0 <= c <= 99).
  { intros a b c Hc. pose proof (days_in_month_range a b).
    unfold check_date_fields in Hc.
    repeat rewrite andb_true_iff in Hc. rewrite !Z.leb_le in Hc. lia. }
  destruct (Hr _ _ _ Hv) as (Hy & Hm & Hd).
  destruct (Hr _ _ _ Hv') as (Hy' & Hm' & Hd').
  exists (ymd2ord y m d * 86400).
  rewrite !date_to_range_date_string by assumption.
  rewrite Hv, Hv', Ho. cbn [andb].
  replace (ymd2ord y m d <? MAXORDINAL) with true by (symmetry; apply Z.ltb_lt; lia).
  replace (ymd2ord y m d + 1 <? MAXORDINAL) with true by (symmetry; apply Z.ltb_lt; lia).
  split; f_equal; f_equal; lia.
Qed.

Lemma date_to_range_consecutive_witness :
  check_date_fields 2023 12 31 = true /\ ymd2ord 2023 12 31 + 1 < MAXORDINAL /\
  exists a, date_to_range (Spec.date_string 2023 12 31) = Some (a, a + 86400) /\
            date_to_range (Spec.date_string 2024 1 1) = Some (a + 86400, a + 2 * 86400).
Proof.
  assert (Hv : check_date_fields 2023 12 31 = true) by reflexivity.
  assert (Hl : ymd2ord 2023 12 31 + 1 < MAXORDINAL) by (vm_compute; reflexivity).
  split; [exact Hv|]. split; [exact Hl|].
  exact (date_to_range_consecutive 2023 12 31 Hv Hl).
Defined.

End CalendarFacts.

Module ClientFacts.
Import SlotUtils Fixtures.

Lemma lstrip_suffix (l : list ascii) : exists pre, l = pre ++ lstrip l.
Proof.
  induction l as [|c r IH]; [exists []; reflexivity|].
  cbn [lstrip]. destruct (is_py_space c).
  - destruct IH as [pre Hpre]. exists (c :: pre). cbn. rewrite <- Hpre. reflexivity.
  - exists []. reflexivity.
Qed.

Lemma lstrip_head (l : list ascii) :
  match lstrip l with [] => True | c :: _ => is_py_space c = false end.
Proof.
  induction l as [|c r IH]; [exact I|].
  cbn [lstrip]. destruct (is_py_space c) eqn:E; [exact IH|exact E].
Qed.

Lemma lstrip_fixed (l : list ascii) :
  match l with [] => True | c :: _ => is_py_space c = false end -> lstrip l = l.
Proof. destruct l as [|c r]; [reflexivity|]. cbn. intro E. rewrite E. reflexivity. Qed.

Lemma strip_idem (l : list ascii) : strip (strip l) = strip l.
Proof.
  unfold strip. set (a := lstrip l). set (b := lstrip (rev a)).
  assert (Ha := lstrip_head l). fold a in Ha.
  assert (Hb := lstrip_head (rev a)). fold b in Hb.
  destruct (lstrip_suffix (rev a)) as [pre Hpre]. fold b in Hpre.
  assert (Hab : a = rev b ++ rev pre).
  { rewrite <- rev_app_distr, <- Hpre, rev_involutive. reflexivity. }
  rewrite (lstrip_fixed (rev b)).
  - rewrite rev_involutive. rewrite (lstrip_fixed b); [reflexivity|].
    destruct b; [exact I|exact Hb].
  - destruct (rev b) as [|c r] eqn:Erb; [exact I|].
    rewrite Hab in Ha. cbn in Ha. exact Ha.
Qed.

Lemma py_strip_idem (x : string) : Views.py_strip (Views.py_strip x) = Views.py_strip x.
Proof.
  unfold Views.py_strip. rewrite list_ascii_of_string_of_list_ascii, strip_idem. reflexivity.
Qed.

Lemma same_client_self (name email phone : string) (pk : nat) :
  Clients.same_client name email phone (mkClientProfile pk name email phone) = true.
Proof.
  unfold Clients.same_client, Clients.iexact. cbn.
  rewrite !String.eqb_refl. reflexivity.
Qed.

Lemma find_app_none {A} (f : A -> bool) (l1 l2 : list A) :
  find f l1 = None -> find f (l1 ++ l2) = find f l2.
Proof.
  induction l1 as [|x r IH]; [reflexivity|]. cbn. destruct (f x); [discriminate|exact IH].
Qed.

Lemma find_none_filter {A} (f : A -> bool) (l : list A) :
  find f l = None -> filter f l = [].
Proof.
  induction l as [|x r IH]; [reflexivity|]. cbn. destruct (f x); [discriminate|exact IH].
Qed.

Lemma create_cases (v : string -> string -> string -> bool) (n e ph : string)
    (t t' : list ClientProfile) (c : Z) (q : ClientProfile)
    (H : Clients.create v n e ph t = (t', (c, Some q))) :
  let name := Views.py_strip n in
  let email := Views.py_strip e in
  let phone := Views.py_strip ph in
  Views.is_empty name = false /\ Views.is_empty email = false /\
  Views.is_empty phone = false /\ Clients.phone_ok phone = true /\
  ((c = 200 /\ t' = t /\ find (Clients.same_client name email phone) t = Some q) \/
   (c = 201 /\ find (Clients.same_client name email phone) t = None /\
    q = mkClientProfile (Clients.next_client_pk t) name email phone /\ t' = t ++ [q])).
Proof.
  unfold Clients.create in H. cbv zeta.
  destruct (Views.is_empty (Views.py_strip n)) eqn:E1; [discriminate|].
  destruct (Views.is_empty (Views.py_strip e)) eqn:E2; [discriminate|].
  destruct (Views.is_empty (Views.py_strip ph)) eqn:E3; [discriminate|].
  cbn [orb] in H.
  destruct (Clients.phone_ok (Views.py_strip ph)) eqn:E4; [|discriminate].
  cbn [negb] in H.
  repeat split; try reflexivity.
  destruct (find _ t) as [x|] eqn:Ef.
  - inversion H; subst. left. auto.
  - destruct (v _ _ _); [|discriminate]. inversion H; subst. right. auto.
Qed.

(** [ClientProfileViewSet.create] is idempotent: once a request has
    answered with a profile (200 or 201), repeating it answers 200 with the
    same profile and leaves the table unchanged. *)
Theorem client_create_idempotent (v : string -> string -> string -> bool) (n e ph : string)
    (t t1 : list ClientProfile) (c : Z) (q : ClientProfile)
    (H : Clients.create v n e ph t = (t1, (c, Some q))) :
  Clients.create v n e ph t1 = (t1, (200, Some q)).
Proof.
  destruct (create_cases v n e ph t t1 c q H) as (E1 & E2 & E3 & E4 & Hc).
  unfold Clients.create. cbv zeta. rewrite E1, E2, E3, E4. cbn [orb negb].
  destruct Hc as [(_ & -> & Hf)|(_ & Hf & -> & ->)].
  - rewrite Hf. reflexivity.
  - rewrite find_app_none by exact Hf. cbn. rewrite same_client_self. reflexivity.
Qed.

Lemma same_client_key (name email phone : string) (p : ClientProfile) :
  Clients.same_client name email phone p = true <->
  Clients.client_key p = (Views.lower name, Views.lower email, phone).
Proof.
  unfold Clients.same_client, Clients.iexact, Clients.client_key.
  rewrite !andb_true_iff, !String.eqb_eq. split.
  - intros [[-> ->] ->]. reflexivity.
  - intro Hk. inversion Hk. auto.
Qed.

(** [ClientProfileViewSet.create] never introduces a duplicate: if no two
    profiles of the table share name and e-mail up to case and phone, the
    same holds after the request. *)
Theorem client_create_no_duplicates (v : string -> string -> string -> bool) (n e ph : string)
    (t : list ClientProfile) (Hnd : NoDup (map Clients.client_key t)) :
  NoDup (map Clients.client_key (fst (Clients.create v n e ph t))).
Proof.
  destruct (Clients.create v n e ph t) as [t' [c [q|]]] eqn:H.
  - destruct (create_cases v n e ph t t' c q H) as (_ & _ & _ & _ & Hc).
    destruct Hc as [(_ & -> & _)|(_ & Hf & -> & ->)]; [exact Hnd|].
    cbn [fst]. rewrite map_app. cbn [map].
    apply NoDup_app; [exact Hnd|constructor; [intros []|constructor]|].
    intros k Hk [Hk'|[]]. subst k.
    apply in_map_iff in Hk. destruct Hk as (p & Hp & Hin).
    assert (Hs : Clients.same_client (Views.py_strip n) (Views.py_strip e) (Views.py_strip ph) p = true).
    { apply same_client_key. rewrite Hp. reflexivity. }
    assert (Hx : find (Clients.same_client (Views.py_strip n) (Views.py_strip e) (Views.py_strip ph)) t <> None).
    { intro Hn. apply find_none_filter in Hn.
      assert (Hi : In p (filter (Clients.same_client (Views.py_strip n) (Views.py_strip e) (Views.py_strip ph)) t))
        by (apply filter_In; auto).
      rewrite Hn in Hi. exact Hi. }
    exact (Hx Hf).
  - unfold Clients.create in H. cbv zeta in H.
    repeat match type of H with
    | context [if ?b then _ else _] => destruct b
    | context [match ?x with Some _ => _ | None => _ end] => destruct x
    end; inversion H; subst; exact Hnd.
Qed.

(** A profile that [ClientProfileViewSet.create] has just created (201)
    passes [ClientProfile.clean] against the new table. *)
Theorem client_create_passes_clean (v : string -> string -> string -> bool) (n e ph : string)
    (t t' : list ClientProfile) (p : ClientProfile)
    (H : Clients.create v n e ph t = (t', (201, Some p))) :
  Clients.clean t' p = None.
Proof.
  destruct (create_cases v n e ph t t' 201 p H) as (E1 & E2 & E3 & _ & Hc).
  destruct Hc as [(Hc & _)|(_ & Hf & -> & ->)]; [discriminate|].
  unfold Clients.clean. cbn [client_name client_email client_phone client_pk].
  rewrite !py_strip_idem, E1, E2, E3. cbn [orb].
  rewrite filter_app, (find_none_filter _ _ Hf). cbn [app filter].
  rewrite same_client_self. unfold Clients.next_client_pk. cbn.
  rewrite Nat.eqb_refl. reflexivity.
Qed.


Lemma client_create_idempotent_witness :
  Clients.create (fun _ _ _ => true) " Bob " "bob@example.com" "5550001" [ann] =
    ([ann; mkClientProfile 2 "Bob" "bob@example.com" "5550001"],
     (201, Some (mkClientProfile 2 "Bob" "bob@example.com" "5550001"))) /\
  Clients.create (fun _ _ _ => true) " Bob " "bob@example.com" "5550001"
    [ann; mkClientProfile 2 "Bob" "bob@example.com" "5550001"] =
    ([ann; mkClientProfile 2 "Bob" "bob@example.com" "5550001"],
     (200, Some (mkClientProfile 2 "Bob" "bob@example.com" "5550001"))).
Proof.
  assert (H : Clients.create (fun _ _ _ => true) " Bob " "bob@example.com" "5550001" [ann] =
    ([ann; mkClientProfile 2 "Bob" "bob@example.com" "5550001"],
     (201, Some (mkClientProfile 2 "Bob" "bob@example.com" "5550001")))) by (vm_compute; reflexivity).
  split; [exact H|].
  exact (client_create_idempotent _ _ _ _ _ _ _ _ H).
Defined.

Lemma client_create_no_duplicates_witness :
  NoDup (map Clients.client_key [ann]) /\
  NoDup (map Clients.client_key
           (fst (Clients.create (fun _ _ _ => true) "ANN" "Ann@Example.com" "5551234" [ann]))).
Proof.
  assert (H : NoDup (map Clients.client_key [ann])) by (constructor; [intros []|constructor]).
  split; [exact H|].
  exact (client_create_no_duplicates (fun _ _ _ => true) "ANN" "Ann@Example.com" "5551234" [ann] H).
Defined.

Lemma client_create_passes_clean_witness :
  Clients.create (fun _ _ _ => true) " Bob " "bob@example.com" "5550001" [ann] =
    ([ann; mkClientProfile 2 "Bob" "bob@example.com" "5550001"],
     (201, Some (mkClientProfile 2 "Bob" "bob@example.com" "5550001"))) /\
  Clients.clean [ann; mkClientProfile 2 "Bob" "bob@example.com" "5550001"]
    (mkClientProfile 2 "Bob" "bob@example.com" "5550001") = None.
Proof.
  assert (H : Clients.create (fun _ _ _ => true) " Bob " "bob@example.com" "5550001" [ann] =
    ([ann; mkClientProfile 2 "Bob" "bob@example.com" "5550001"],
     (201, Some (mkClientProfile 2 "Bob" "bob@example.com" "5550001")))) by (vm_compute; reflexivity).
  split; [exact H|].
  exact (client_create_passes_clean _ _ _ _ _ _ _ H).
Defined.

(** [FeedbackSerializer.validate] accepts exactly the feedback on a booking
    that started strictly before [now] and is not cancelled, with a rating
    in 1..5 when one is given. *)
Theorem feedback_validate_accepts (booking : option Booking) (rating : option Z) (now : Z) :
  FeedbackApi.validate booking rating now = None <->
  (forall b, booking = Some b -> booking_start_time b < now /\ status b = CONFIRMED) /\
  (forall r, rating = Some r -> 1 <= r <= 5).
Proof.
  unfold FeedbackApi.validate.
  destruct booking as [b|]; destruct rating as [r|].
  - destruct (now <=? booking_start_time b) eqn:E1.
    + split; [discriminate|]. intros [H _]. destruct (H b eq_refl). apply Z.leb_le in E1. lia.
    + apply Z.leb_gt in E1.
      destruct ((r <? 1) || (5 <? r)) eqn:E2.
      * split; [discriminate|]. intros [_ H]. specialize (H r eq_refl).
        apply orb_true_iff in E2. rewrite !Z.ltb_lt in E2. lia.
      * apply orb_false_iff in E2. rewrite !Z.ltb_ge in E2.
        destruct (status b) eqn:Es; cbn.
        -- split; [|reflexivity]. intros _. split; [intros b' Hb; inversion Hb; subst; auto|].
           intros r' Hr; inversion Hr; subst; lia.
        -- split; [discriminate|]. intros [H _]. destruct (H b eq_refl). congruence.
  - destruct (now <=? booking_start_time b) eqn:E1.
    + split; [discriminate|]. intros [H _]. destruct (H b eq_refl). apply Z.leb_le in E1. lia.
    + apply Z.leb_gt in E1. destruct (status b) eqn:Es; cbn.
      * split; [|reflexivity]. intros _. split; [intros b' Hb; inversion Hb; subst; auto|].
        discriminate.
      * split; [discriminate|]. intros [H _]. destruct (H b eq_refl). congruence.
  - destruct ((r <? 1) || (5 <? r)) eqn:E2.
    + split; [discriminate|]. intros [_ H]. specialize (H r eq_refl).
      apply orb_true_iff in E2. rewrite !Z.ltb_lt in E2. lia.
    + apply orb_false_iff in E2. rewrite !Z.ltb_ge in E2. split; [|reflexivity].
      intros _. split; [discriminate|]. intros r' Hr; inversion Hr; subst; lia.
  - split; [|reflexivity]. intros _. split; discriminate.
Qed.

End ClientFacts.
